(** * TP_nodejs: training sessions service

    A shallow embedding of the Express application (the route table and
    the nine handlers of the main module, and [connectDb] of [lib.js]),
    with the properties of its specification stated over it.

    The handlers are asynchronous JavaScript functions that talk to a
    MySQL connection.  Here a handler is a function from the store and
    the request to the new store and the answer; what a handler catches
    with [try]/[catch] is an explicit error value. *)

From Stdlib Require Import ZArith List String Ascii Bool Lia.
Import ListNotations.

Local Open Scope string_scope.
Local Open Scope Z_scope.

Set Implicit Arguments.

(* ================================================================== *)
(** ** Calendar dates and their text form *)

Module Calendar.

(** A [DATE] value of the store: a calendar day without a time. *)
Record date := mkDate { year : Z; month : Z; day : Z }.

Definition is_leap (y : Z) : bool :=
  ((y mod 4 =? 0) && negb (y mod 100 =? 0)) || (y mod 400 =? 0).

Definition days_in_month (y m : Z) : Z :=
  if m =? 2 then (if is_leap y then 29 else 28)
  else if (m =? 4) || (m =? 6) || (m =? 9) || (m =? 11) then 30
  else 31.

Definition digit_of (c : ascii) : option Z :=
  let n := Z.of_nat (nat_of_ascii c) in
  if (48 <=? n) && (n <=? 57) then Some (n - 48) else None.

Definition digit_char (n : Z) : ascii :=
  ascii_of_nat (Z.to_nat (48 + n mod 10)).

(** [pad_digits k n]: the last [k] decimal digits of [n], zero padded
    (JavaScript's [padStart(k, "0")] on a number below [10^k]). *)
Fixpoint pad_digits (k : nat) (n : Z) : string :=
  match k with
  | O => ""
  | S k' => pad_digits k' (n / 10) ++ String (digit_char n) ""
  end.

Definition two_digits (a b : ascii) : option Z :=
  match digit_of a, digit_of b with
  | Some x, Some y => Some (10 * x + y)
  | _, _ => None
  end.

Definition four_digits (a b c d : ascii) : option Z :=
  match two_digits a b, two_digits c d with
  | Some x, Some y => Some (100 * x + y)
  | _, _ => None
  end.

Definition valid_date (d : date) : bool :=
  (0 <=? year d) && (year d <=? 9999) &&
  (1 <=? month d) && (month d <=? 12) &&
  (1 <=? day d) && (day d <=? days_in_month (year d) (month d)).

(** The text [YYYY-MM-DD] of a real calendar day, and nothing else:
    what [z.string().date()] accepts, and the literal form in which
    the handlers hand a date to the store. *)
Definition parse_date (s : string) : option date :=
  match s with
  | String y1 (String y2 (String y3 (String y4 (String h1
      (String m1 (String m2 (String h2
        (String d1 (String d2 EmptyString))))))))) =>
      if Ascii.eqb h1 "-" && Ascii.eqb h2 "-" then
        match four_digits y1 y2 y3 y4, two_digits m1 m2, two_digits d1 d2 with
        | Some y, Some m, Some d =>
            let r := mkDate y m d in
            if valid_date r then Some r else None
        | _, _, _ => None
        end
      else None
  | _ => None
  end.

(** The text the store gives back for a [DATE] column. *)
Definition render_date (d : date) : string :=
  pad_digits 4 (year d) ++ "-" ++ pad_digits 2 (month d) ++ "-"
    ++ pad_digits 2 (day d).

Definition is_digit (c : ascii) : bool :=
  match digit_of c with Some _ => true | None => false end.

(** The shape [YYYY-MM-DD]: four digits, a dash, two digits, a dash,
    two digits. *)
Definition is_ymd (s : string) : bool :=
  match s with
  | String y1 (String y2 (String y3 (String y4 (String h1
      (String m1 (String m2 (String h2
        (String d1 (String d2 EmptyString))))))))) =>
      Ascii.eqb h1 "-" && Ascii.eqb h2 "-"
      && is_digit y1 && is_digit y2 && is_digit y3 && is_digit y4
      && is_digit m1 && is_digit m2 && is_digit d1 && is_digit d2
  | _ => false
  end.

(** Days since 1970-01-01 of a civil date, and back (proleptic
    Gregorian calendar, as ECMAScript's time values use it). *)
Definition days_from_civil (d : date) : Z :=
  let y := if month d <=? 2 then year d - 1 else year d in
  let era := y / 400 in
  let yoe := y - era * 400 in
  let mp := if month d <=? 2 then month d + 9 else month d - 3 in
  let doy := (153 * mp + 2) / 5 + day d - 1 in
  let doe := yoe * 365 + yoe / 4 - yoe / 100 + doy in
  era * 146097 + doe - 719468.

Definition civil_from_days (n : Z) : date :=
  let z := n + 719468 in
  let era := z / 146097 in
  let doe := z - era * 146097 in
  let yoe := (doe - doe / 1460 + doe / 36524 - doe / 146096) / 365 in
  let doy := doe - (365 * yoe + yoe / 4 - yoe / 100) in
  let mp := (5 * doy + 2) / 153 in
  let d := doy - (153 * mp + 2) / 5 + 1 in
  let m := if mp <? 10 then mp + 3 else mp - 9 in
  let y := yoe + era * 400 in
  mkDate (if m <=? 2 then y + 1 else y) m d.

End Calendar.

Import Calendar.

(* ================================================================== *)
(** ** JavaScript values that travel between driver, handlers and JSON *)

Inductive value :=
| Num (n : Z)
| Str (s : string)
| DateObj (t : Z)      (* a [Date] instance, [t] its time value in ms *)
| Null.

(** A row object, or a parsed JSON body: keys in insertion order. *)
Definition object := list (string * value).

Fixpoint prop (o : object) (k : string) : option value :=
  match o with
  | [] => None
  | (k', v) :: o' => if String.eqb k k' then Some v else prop o' k
  end.

Definition ms_per_day : Z := 86400000.

Definition iso_year (y : Z) : string :=
  if (0 <=? y) && (y <=? 9999) then pad_digits 4 y
  else (if y <? 0 then "-" else "+") ++ pad_digits 6 (Z.abs y).

(** [Date.prototype.toISOString], in UTC. *)
Definition toISOString (t : Z) : string :=
  let d := civil_from_days (t / ms_per_day) in
  let r := t mod ms_per_day in
  iso_year (year d) ++ "-" ++ pad_digits 2 (month d) ++ "-"
    ++ pad_digits 2 (day d) ++ "T"
    ++ pad_digits 2 (r / 3600000) ++ ":" ++ pad_digits 2 (r / 60000 mod 60)
    ++ ":" ++ pad_digits 2 (r / 1000 mod 60) ++ "." ++ pad_digits 3 (r mod 1000)
    ++ "Z".

(** [s.split(sep)[0]] for a one-character separator. *)
Fixpoint split_head (sep : ascii) (s : string) : string :=
  match s with
  | EmptyString => EmptyString
  | String c r => if Ascii.eqb c sep then EmptyString
                  else String c (split_head sep r)
  end.

(** The body of the [for (const key in row)] loop of both GET handlers:
    [if (row[key] instanceof Date) row[key] = row[key].toISOString().split("T")[0]]. *)
Definition format_value (v : value) : value :=
  match v with
  | DateObj t => Str (split_head "T" (toISOString t))
  | _ => v
  end.

Definition format_row (row : object) : object :=
  map (fun kv => (fst kv, format_value (snd kv))) row.

Definition is_date_instance (v : value) : bool :=
  match v with DateObj _ => true | _ => false end.

(* ================================================================== *)
(** ** lib.js: the connection *)

(** The two options of [mysql2.createConnection] that decide what a
    query returns; host, user, database and password only say where the
    store is. *)
Record connection := {
  timezone : Z;          (* minutes east of UTC *)
  dateStrings : bool
}.

Definition connectDb : connection :=
  {| timezone := 60;      (* "+01:00" *)
     dateStrings := true  (* dates come back as plain text *) |}.

(** What the driver hands over for a [DATE] column: its text when
    [dateStrings] is set, otherwise a [Date] at midnight of that day in
    the connection's time zone. *)
Definition date_column (c : connection) (d : date) : value :=
  if dateStrings c then Str (render_date d)
  else DateObj (days_from_civil d * ms_per_day - timezone c * 60000).

(* ================================================================== *)
(** ** Libraries the handlers call: bcrypt, jsonwebtoken, zod *)

(** A bcrypt hash carries its cost and its salt next to the digest;
    [compare] derives the digest again from them. *)
Record password_hash := {
  bh_cost : Z;
  bh_salt : string;
  bh_digest : string
}.

(** The payload [{ id, role }] that login signs. *)
Record payload := { p_id : Z; p_role : string }.

(** A signed token: the payload and the issue time are readable by
    anyone, the signature binds them to the key. *)
Record token := {
  tk_payload : payload;
  tk_iat : Z;
  tk_signature : string
}.

(** What lies outside the repository and is left open: the key
    derivation of bcrypt, the MAC of the token, the e-mail syntax of
    zod, the signing key of the process and, of the schema, whether the
    store checks references. *)
Inductive references := Unchecked | Restrict | Cascade.

Record platform := {
  kdf : Z -> string -> string -> string;
  mac : string -> payload -> Z -> string;
  is_email : string -> bool;
  JWT_KEY : string;
  foreign_keys : references
}.

Inductive result (E A : Type) :=
| Ok (a : A)
| Err (e : E).
Arguments Ok {E A} a.
Arguments Err {E A} e.

Definition bind {E A B} (r : result E A) (k : A -> result E B) : result E B :=
  match r with
  | Ok a => k a
  | Err e => Err e
  end.

Notation "x <- r ;; k" := (bind r (fun x => k))
  (at level 61, r at next level, right associativity).
Notation "' p <- r ;; k" := (bind r (fun x => match x with p => k end))
  (at level 61, p pattern, r at next level, right associativity).

(* ================================================================== *)
(** ** The relational store *)

Record user := {
  user_id : Z;
  user_name : string;
  user_email : string;
  user_password : password_hash;
  user_role : string
}.

Record session := {
  session_id : Z;
  session_title : string;
  session_date : date;
  session_formateur_id : Z
}.

Record emargement := {
  emargement_id : Z;
  emargement_session_id : Z;
  emargement_etudiant_id : Z;
  emargement_status : string
}.

(** Modelled from the spec: the schema of the three tables, which is
    not among the sources.  Section 3 gives the columns, the surrogate
    keys assigned by the store, the uniqueness of [user.email], the
    [DATE] type of [session.date], and no uniqueness on [emargement];
    the statements of the handlers give the column names.  Text is
    compared character by character, and widths of columns are not
    limited. *)
Record database := {
  users : list user;
  sessions : list session;
  emargements : list emargement;
  user_auto : Z;          (* next AUTO_INCREMENT value of each table *)
  session_auto : Z;
  emargement_auto : Z
}.

Definition empty_database : database :=
  {| users := []; sessions := []; emargements := [];
     user_auto := 1; session_auto := 1; emargement_auto := 1 |}.

Inductive sql_error :=
| ER_DUP_ENTRY
| ER_NO_REFERENCED_ROW
| ER_ROW_IS_REFERENCED
| ER_TRUNCATED_WRONG_VALUE.

(** What [db.execute] resolves to for a statement that is not a query. *)
Record ResultSetHeader := { insertId : Z; affectedRows : Z }.

Definition has_user (db : database) (id : Z) : bool :=
  existsb (fun u => user_id u =? id) (users db).

Definition has_session (db : database) (id : Z) : bool :=
  existsb (fun s => session_id s =? id) (sessions db).

Definition checks (r : references) : bool :=
  match r with Unchecked => false | _ => true end.

(** [SELECT ... FROM user WHERE email = ?] *)
Definition select_user_by_email (db : database) (email : string) : list user :=
  filter (fun u => String.eqb (user_email u) email) (users db).

(** [SELECT id from user where name = ?] *)
Definition select_user_by_name (db : database) (name : string) : list user :=
  filter (fun u => String.eqb (user_name u) name) (users db).

(** [INSERT INTO user (name, email, password, role) VALUES (?, ?, ?, ?)] *)
Definition insert_user (db : database) (name email : string)
    (password : password_hash) (role : string)
  : result sql_error (database * ResultSetHeader) :=
  match select_user_by_email db email with
  | _ :: _ => Err ER_DUP_ENTRY
  | [] =>
      let id := user_auto db in
      Ok ({| users := users db ++ [{| user_id := id; user_name := name;
                                      user_email := email;
                                      user_password := password;
                                      user_role := role |}]%list;
             sessions := sessions db;
             emargements := emargements db;
             user_auto := id + 1;
             session_auto := session_auto db;
             emargement_auto := emargement_auto db |},
          {| insertId := id; affectedRows := 1 |})
  end.

(** [INSERT INTO session (title, date, formateur_id) VALUES (?, ?, ?)] *)
Definition insert_session (fk : references) (db : database) (title date_text : string)
    (formateur_id : Z)
  : result sql_error (database * ResultSetHeader) :=
  match parse_date date_text with
  | None => Err ER_TRUNCATED_WRONG_VALUE
  | Some d =>
      if checks fk && negb (has_user db formateur_id)
      then Err ER_NO_REFERENCED_ROW
      else
        let id := session_auto db in
        Ok ({| users := users db;
               sessions := sessions db ++ [{| session_id := id;
                                              session_title := title;
                                              session_date := d;
                                              session_formateur_id := formateur_id |}]%list;
               emargements := emargements db;
               user_auto := user_auto db;
               session_auto := id + 1;
               emargement_auto := emargement_auto db |},
            {| insertId := id; affectedRows := 1 |})
  end.

(** [SELECT * FROM session] and [SELECT * FROM session where id = ?] *)
Definition select_sessions (db : database) : list session := sessions db.

Definition select_session_by_id (db : database) (id : Z) : list session :=
  filter (fun s => session_id s =? id) (sessions db).

(** [UPDATE session SET title = ?, date = ?, formateur_id = ? WHERE id = ?].
    The new values are converted and checked when a row is written, so a
    statement that matches no row succeeds with nothing affected; no
    AUTO_INCREMENT value is generated, and [insertId] is 0. *)
Definition update_session (fk : references) (db : database) (title date_text : string)
    (formateur_id id : Z)
  : result sql_error (database * ResultSetHeader) :=
  match select_session_by_id db id with
  | [] => Ok (db, {| insertId := 0; affectedRows := 0 |})
  | matched =>
      match parse_date date_text with
      | None => Err ER_TRUNCATED_WRONG_VALUE
      | Some d =>
          if checks fk && negb (has_user db formateur_id)
          then Err ER_NO_REFERENCED_ROW
          else
            Ok ({| users := users db;
                   sessions :=
                     map (fun s => if session_id s =? id
                                   then {| session_id := id;
                                           session_title := title;
                                           session_date := d;
                                           session_formateur_id := formateur_id |}
                                   else s) (sessions db);
                   emargements := emargements db;
                   user_auto := user_auto db;
                   session_auto := session_auto db;
                   emargement_auto := emargement_auto db |},
                {| insertId := 0; affectedRows := Z.of_nat (List.length matched) |})
      end
  end.

(** [DELETE FROM session WHERE id = ?]; [insertId] is 0 here too. *)
Definition delete_session (fk : references) (db : database) (id : Z)
  : result sql_error (database * ResultSetHeader) :=
  let matched := select_session_by_id db id in
  let children := filter (fun e => emargement_session_id e =? id) (emargements db) in
  match matched, children, fk with
  | _ :: _, _ :: _, Restrict => Err ER_ROW_IS_REFERENCED
  | _, _, _ =>
      Ok ({| users := users db;
             sessions := filter (fun s => negb (session_id s =? id)) (sessions db);
             emargements :=
               match matched, fk with
               | _ :: _, Cascade =>
                   filter (fun e => negb (emargement_session_id e =? id)) (emargements db)
               | _, _ => emargements db
               end;
             user_auto := user_auto db;
             session_auto := session_auto db;
             emargement_auto := emargement_auto db |},
          {| insertId := 0; affectedRows := Z.of_nat (List.length matched) |})
  end.

(** [INSERT INTO emargement (session_id, etudiant_id, status) VALUES (?, ?, '1')] *)
Definition insert_emargement (fk : references) (db : database) (id_session id_etudiant : Z)
  : result sql_error (database * ResultSetHeader) :=
  if checks fk && negb (has_session db id_session && has_user db id_etudiant)
  then Err ER_NO_REFERENCED_ROW
  else
    let id := emargement_auto db in
    Ok ({| users := users db;
           sessions := sessions db;
           emargements := emargements db ++ [{| emargement_id := id;
                                                emargement_session_id := id_session;
                                                emargement_etudiant_id := id_etudiant;
                                                emargement_status := "1" |}]%list;
           user_auto := user_auto db;
           session_auto := session_auto db;
           emargement_auto := id + 1 |},
        {| insertId := id; affectedRows := 1 |}).

(** [SELECT u.name FROM user u INNER JOIN emargement e
     ON u.id = e.etudiant_id WHERE e.session_id = ?] *)
Definition select_attendance (db : database) (id : Z) : list object :=
  flat_map (fun u =>
    flat_map (fun e =>
      if (user_id u =? emargement_etudiant_id e) && (emargement_session_id e =? id)
      then [[("name", Str (user_name u))]] else [])
      (emargements db))
    (users db).

(** A session row as the driver delivers it. *)
Definition session_row (c : connection) (s : session) : object :=
  [ ("id", Num (session_id s));
    ("title", Str (session_title s));
    ("date", date_column c (session_date s));
    ("formateur_id", Num (session_formateur_id s)) ].

(* ================================================================== *)
(** ** Requests and answers *)

Inductive credential :=
| Garbled (text : string)     (* a header that is no token *)
| Bearer (t : token).

Record request := {
  authorization : option credential;
  params_id : Z;                   (* [parseInt(req.params.id)] *)
  body : object;                   (* [req.body] after [express.json()] *)
  attached : option payload        (* what the role check attaches *)
}.

(** What does not come with the request: the salt bcrypt draws and the
    clock jsonwebtoken reads. *)
Record ambient := { salt : string; now : Z }.

Inductive thrown :=
| SqlError (e : sql_error)
| TypeError (message : string).

Inductive content :=
| Json (o : object)              (* [res.json({ ... })] *)
| JsonRows (rows : list object)  (* [res.json(rows)] *)
| JsonToken (t : token)          (* [res.json({ token })] *)
| JsonError (e : thrown)         (* [res.json({ error: error.message })] *)
| Text (s : string).             (* [res.send("...")] *)

Record response := { status : Z; sent : content }.

Inductive refusal :=
| ValidationError (fields : list string)
| Unauthenticated
| Forbidden.

Inductive outcome :=
| Responded (r : response)       (* a handler of the main module answered *)
| Refused (e : refusal).         (* a middleware answered before it *)

(** A field of a body that passed its schema is a string. *)
Definition field (o : object) (k : string) : string :=
  match prop o k with
  | Some (Str s) => s
  | _ => ""
  end.

Definition sql {A} (r : result sql_error A) : result thrown A :=
  match r with
  | Ok a => Ok a
  | Err e => Err (SqlError e)
  end.

(** [rows[0].id]: reading a property of [undefined] throws. *)
Definition first_id (rows : list user) : result thrown Z :=
  match rows with
  | [] => Err (TypeError "Cannot read properties of undefined (reading 'id')")
  | u :: _ => Ok (user_id u)
  end.

(** [try { ... } catch (error) { res.status(500); res.json({ error: error.message }) }];
    a statement that fails leaves the store as it was. *)
Definition catch (db : database) (r : result thrown (database * response))
  : database * response :=
  match r with
  | Ok x => x
  | Err e => (db, {| status := 500; sent := JsonError e |})
  end.

(* ------------------------------------------------------------------ *)
(** *** zod schemas *)

Inductive check :=
| MinString (n : nat)          (* [z.string().min(n)] *)
| Email                        (* [z.string().email()] *)
| DateString                   (* [z.string().date()] *)
| Enum (allowed : list string) (* [z.enum([...])] *).

Definition schema := list (string * check).

Definition userSchema : schema :=
  [ ("name", MinString 2); ("email", Email); ("password", MinString 6);
    ("role", Enum ["etudiant"; "formateur"]) ].

Definition loginSchema : schema :=
  [ ("email", Email); ("password", MinString 6) ].

Definition sessionsSchema : schema :=
  [ ("email", Email); ("title", MinString 4); ("date_session", DateString) ].

Definition modifSessionsSchema : schema :=
  [ ("newTitle", MinString 4); ("newDate_session", DateString);
    ("newFormateurName", MinString 2) ].

Definition emargementSchema : schema :=
  [ ("email", Email) ].

Section Application.

Variable X : platform.

Definition bcrypt_hash (data : string) (rounds : Z) (salt : string) : password_hash :=
  {| bh_cost := rounds; bh_salt := salt; bh_digest := kdf X rounds salt data |}.

Definition bcrypt_compare (data : string) (h : password_hash) : bool :=
  String.eqb (kdf X (bh_cost h) (bh_salt h) data) (bh_digest h).

Definition jwt_sign (p : payload) (key : string) (iat : Z) : token :=
  {| tk_payload := p; tk_iat := iat; tk_signature := mac X key p iat |}.

Definition jwt_verify (t : token) (key : string) : option payload :=
  if String.eqb (mac X key (tk_payload t) (tk_iat t)) (tk_signature t)
  then Some (tk_payload t) else None.

Definition passes (c : check) (v : option value) : bool :=
  match v with
  | Some (Str s) =>
      match c with
      | MinString n => (n <=? String.length s)%nat
      | Email => is_email X s
      | DateString => match parse_date s with Some _ => true | None => false end
      | Enum allowed => existsb (String.eqb s) allowed
      end
  | _ => false
  end.

Definition issues (s : schema) (o : object) : list string :=
  map fst (filter (fun fc => negb (passes (snd fc) (prop o (fst fc)))) s).

(* ------------------------------------------------------------------ *)
(** *** middleware.js *)

(** Modelled from the spec: [validateData] of [middleware.js], which is
    not among the sources.  Sections 1 and 7: the payload is checked
    against the schema and a malformed one is rejected with the list of
    the fields in error before it reaches the handler. *)
Definition validateData (s : schema) (req : request) : result refusal request :=
  match issues s (body req) with
  | [] => Ok req
  | fields => Err (ValidationError fields)
  end.

(** Modelled from the spec: [checkAuthForm] and [checkAuthEtud] of
    [middleware.js], which are not among the sources.  Section 4.3: the
    bearer token is taken from the request and verified; without a
    token, or with one that does not verify, the request is refused as
    unauthenticated; with a verified role other than the required one
    it is refused as forbidden; otherwise [{ id, role }] is attached to
    the request, which proceeds. *)
Definition requireRole (role : string) (req : request) : result refusal request :=
  match authorization req with
  | Some (Bearer t) =>
      match jwt_verify t (JWT_KEY X) with
      | Some p =>
          if String.eqb (p_role p) role
          then Ok {| authorization := authorization req;
                     params_id := params_id req;
                     body := body req;
                     attached := Some p |}
          else Err Forbidden
      | None => Err Unauthenticated
      end
  | _ => Err Unauthenticated
  end.

Definition checkAuthForm : request -> result refusal request :=
  requireRole "formateur".

Definition checkAuthEtud : request -> result refusal request :=
  requireRole "etudiant".

(* ------------------------------------------------------------------ *)
(** *** The handlers *)

Variable conn : connection.

(** POST /auth/signup *)
Definition signup (db : database) (a : ambient) (req : request)
  : database * response :=
  let data := body req in
  catch db (
    let hashedPassword := bcrypt_hash (field data "password") 10 (salt a) in
    ' (db', result) <- sql (insert_user db (field data "name") (field data "email")
                              hashedPassword (field data "role")) ;;
    Ok (db', {| status := 200;
                sent := Json [ ("id", Num (insertId result));
                               ("name", Str (field data "name"));
                               ("email", Str (field data "email"));
                               ("role", Str (field data "role")) ] |})).

(** POST /auth/login *)
Definition login (db : database) (a : ambient) (req : request)
  : database * response :=
  let data := body req in
  let rows := select_user_by_email db (field data "email") in
  match rows with
  | [] => (db, {| status := 401; sent := Text "User not found" |})
  | row0 :: _ =>
      let isRightPassword :=
        bcrypt_compare (field data "password") (user_password row0) in
      if negb isRightPassword
      then (db, {| status := 401; sent := Text "Unauthorized" |})
      else
        let payload := {| p_id := user_id row0; p_role := user_role row0 |} in
        let token := jwt_sign payload (JWT_KEY X) (now a) in
        (db, {| status := 200; sent := JsonToken token |})
  end.

(** POST /sessions *)
Definition createSession (db : database) (req : request) : database * response :=
  let data := body req in
  let rows := select_user_by_email db (field data "email") in
  catch db (
    id_formateur <- first_id rows ;;
    ' (db', result) <- sql (insert_session (foreign_keys X) db (field data "title")
                              (field data "date_session") id_formateur) ;;
    Ok (db', {| status := 200;
                sent := Json [ ("id", Num (insertId result));
                               ("title", Str (field data "title"));
                               ("date", Str (field data "date_session"));
                               ("id_formateur", Num id_formateur) ] |})).

(** GET /sessions *)
Definition listSessions (db : database) : database * response :=
  let rows := map (session_row conn) (select_sessions db) in
  let formattedRows := map format_row rows in
  (db, {| status := 200; sent := JsonRows formattedRows |}).

(** GET /sessions/:id *)
Definition getSession (db : database) (req : request) : database * response :=
  let id := params_id req in
  let rows := map (session_row conn) (select_session_by_id db id) in
  match rows with
  | [] => (db, {| status := 404; sent := Text "Session not found" |})
  | _ =>
      let formattedRows := map format_row rows in
      (db, {| status := 200; sent := JsonRows formattedRows |})
  end.

(** PUT /sessions/:id *)
Definition updateSession (db : database) (req : request) : database * response :=
  let id_session := params_id req in
  let data := body req in
  catch db (
    let formateur := select_user_by_name db (field data "newFormateurName") in
    match formateur with
    | [] => Ok (db, {| status := 404; sent := Text "User not found" |})
    | row0 :: _ =>
        let id_formateur := user_id row0 in
        ' (db', result) <- sql (update_session (foreign_keys X) db (field data "newTitle")
                                  (field data "newDate_session") id_formateur id_session) ;;
        Ok (db', {| status := 200;
                    sent := Json [ ("id", Num (insertId result));
                                   ("new_title", Str (field data "newTitle"));
                                   ("new_date", Str (field data "newDate_session"));
                                   ("new_id_formateur", Num id_formateur) ] |})
    end).

(** DELETE /sessions/:id *)
Definition deleteSession (db : database) (req : request) : database * response :=
  let id_session := params_id req in
  catch db (
    ' (db', result) <- sql (delete_session (foreign_keys X) db id_session) ;;
    Ok (db', {| status := 200; sent := Json [ ("id", Num (insertId result)) ] |})).

(** POST /sessions/:id/emargement *)
Definition recordAttendance (db : database) (req : request) : database * response :=
  let id_session := params_id req in
  let data := body req in
  catch db (
    let rows := select_user_by_email db (field data "email") in
    match rows with
    | [] => Ok (db, {| status := 404; sent := Text "User not found" |})
    | row0 :: _ =>
        let id_etudiant := user_id row0 in
        ' (db', result) <- sql (insert_emargement (foreign_keys X) db id_session id_etudiant) ;;
        Ok (db', {| status := 200;
                    sent := Json [ ("id", Num (insertId result));
                                   ("id_session", Num id_session);
                                   ("id_etudiant", Num id_etudiant);
                                   ("status", Str "1") ] |})
    end).

(** GET /sessions/:id/emargement *)
Definition listAttendance (db : database) (req : request) : database * response :=
  let id := params_id req in
  let rows := select_attendance db id in
  (db, {| status := 200; sent := JsonRows rows |}).

(* ------------------------------------------------------------------ *)
(** *** The route table *)

Inductive middleware :=
| express_json
| validate (s : schema)
| auth_form
| auth_etud.

Inductive route :=
| POST_auth_signup
| POST_auth_login
| POST_sessions
| GET_sessions
| GET_sessions_id
| PUT_sessions_id
| DELETE_sessions_id
| POST_sessions_id_emargement
| GET_sessions_id_emargement.

(** The middlewares each route registers, in the order of its
    [app.METHOD(path, ...)] call. *)
Definition chain (r : route) : list middleware :=
  match r with
  | POST_auth_signup => [express_json; validate userSchema]
  | POST_auth_login => [express_json; validate loginSchema]
  | POST_sessions => [express_json; validate sessionsSchema; auth_form]
  | GET_sessions => []
  | GET_sessions_id => []
  | PUT_sessions_id => [express_json; auth_form; validate modifSessionsSchema]
  | DELETE_sessions_id => [express_json; auth_form]
  | POST_sessions_id_emargement => [express_json; auth_etud; validate emargementSchema]
  | GET_sessions_id_emargement => [auth_form]
  end.

Definition handler (r : route) (db : database) (a : ambient) (req : request)
  : database * response :=
  match r with
  | POST_auth_signup => signup db a req
  | POST_auth_login => login db a req
  | POST_sessions => createSession db req
  | GET_sessions => listSessions db
  | GET_sessions_id => getSession db req
  | PUT_sessions_id => updateSession db req
  | DELETE_sessions_id => deleteSession db req
  | POST_sessions_id_emargement => recordAttendance db req
  | GET_sessions_id_emargement => listAttendance db req
  end.

Definition run_middleware (m : middleware) (req : request) : result refusal request :=
  match m with
  | express_json => Ok req
  | validate s => validateData s req
  | auth_form => checkAuthForm req
  | auth_etud => checkAuthEtud req
  end.

(** Express calls the middlewares in order; the first that answers
    ends the request. *)
Fixpoint run_chain (ms : list middleware) (req : request) : result refusal request :=
  match ms with
  | [] => Ok req
  | m :: ms' => req' <- run_middleware m req ;; run_chain ms' req'
  end.

Definition serve (r : route) (db : database) (a : ambient) (req : request)
  : database * outcome :=
  match run_chain (chain r) req with
  | Err e => (db, Refused e)
  | Ok req' => let (db', res) := handler r db a req' in (db', Responded res)
  end.

End Application.

(** The application as the main module builds it: every query goes
    through the connection [connectDb] returns. *)
Definition app (X : platform) : route -> database -> ambient -> request
    -> database * outcome :=
  serve X connectDb.

(* ================================================================== *)
(** ** Observations on stores and answers *)

(** Every key is below the counter that assigns the next one, and every
    stored date is a calendar day: what the statements above maintain. *)
Definition well_formed (db : database) : bool :=
  forallb (fun u => user_id u <? user_auto db) (users db)
  && forallb (fun s => (session_id s <? session_auto db)
                       && valid_date (session_date s)) (sessions db)
  && forallb (fun e => emargement_id e <? emargement_auto db) (emargements db).

(** The attendance records of a (session, trainee) pair. *)
Definition attendance_of (db : database) (id_session id_etudiant : Z)
  : list emargement :=
  filter (fun e => (emargement_session_id e =? id_session)
                   && (emargement_etudiant_id e =? id_etudiant))
         (emargements db).

Definition issued_token (o : outcome) : option token :=
  match o with
  | Responded {| sent := JsonToken t |} => Some t
  | _ => None
  end.

Definition no_date_instance (row : object) : bool :=
  forallb (fun kv => negb (is_date_instance (snd kv))) row.

(** The date of a row is text of the shape [YYYY-MM-DD]. *)
Definition date_is_ymd (row : object) : bool :=
  match prop row "date" with
  | Some (Str s) => is_ymd s
  | _ => false
  end.

Definition is_auth (m : middleware) : bool :=
  match m with auth_form | auth_etud => true | _ => false end.

Definition is_validation (m : middleware) : bool :=
  match m with validate _ => true | _ => false end.

(** No schema validation is registered ahead of a role check. *)
Fixpoint role_check_first (ms : list middleware) : bool :=
  match ms with
  | [] => true
  | m :: ms' =>
      (if is_validation m then negb (existsb is_auth ms') else true)
      && role_check_first ms'
  end.

(** The routes that register both a role check and a schema. *)
Definition guarded_and_validated (r : route) : bool :=
  existsb is_auth (chain r) && existsb is_validation (chain r).

(** A run of the service: the requests in the order they are handled. *)
Record call := { target : route; at_time : ambient; incoming : request }.

Fixpoint run (X : platform) (db : database) (cs : list call)
  : database * list outcome :=
  match cs with
  | [] => (db, [])
  | c :: cs' =>
      let (db1, o) := app X (target c) db (at_time c) (incoming c) in
      let (db2, os) := run X db1 cs' in
      (db2, o :: os)
  end.

(* ------------------------------------------------------------------ *)
(** *** A small deployment, for the examples *)

Fixpoint has_at (s : string) : bool :=
  match s with
  | EmptyString => false
  | String c r => Ascii.eqb c "@" || has_at r
  end.

Definition lab (fk : references) : platform :=
  {| kdf := fun cost salt data => salt ++ "$" ++ data;
     mac := fun key p iat => key ++ "." ++ pad_digits 4 (p_id p) ++ "." ++ p_role p;
     is_email := has_at;
     JWT_KEY := "k3y";
     foreign_keys := fk |}.

Definition noon : ambient := {| salt := "NaCl"; now := 1733698800 |}.

Definition anonymous (id : Z) (o : object) : request :=
  {| authorization := None; params_id := id; body := o; attached := None |}.

Definition as_user (X : platform) (id : Z) (role : string) (pid : Z) (o : object)
  : request :=
  {| authorization :=
       Some (Bearer (jwt_sign X {| p_id := id; p_role := role |} (JWT_KEY X) 0));
     params_id := pid; body := o; attached := None |}.

Definition signup_body (name email password role : string) : object :=
  [ ("name", Str name); ("email", Str email); ("password", Str password);
    ("role", Str role) ].

(** Ana the trainee (id 1), Bob the trainee (id 2), Zoe the trainer
    (id 3), and Zoe's session "Algo" (id 1) of 2024-12-09. *)
Definition classroom (X : platform) : database :=
  fst (run X empty_database
    [ {| target := POST_auth_signup; at_time := noon;
         incoming := anonymous 0 (signup_body "Ana" "a@x.com" "secret1" "etudiant") |};
      {| target := POST_auth_signup; at_time := noon;
         incoming := anonymous 0 (signup_body "Bob" "b@x.com" "secret2" "etudiant") |};
      {| target := POST_auth_signup; at_time := noon;
         incoming := anonymous 0 (signup_body "Zoe" "z@x.com" "secret3" "formateur") |};
      {| target := POST_sessions; at_time := noon;
         incoming := as_user X 3 "formateur" 0
                       [ ("email", Str "z@x.com"); ("title", Str "Algo");
                         ("date_session", Str "2024-12-09") ] |} ]).

Definition X0 : platform := lab Restrict.

Definition db0 : database := classroom X0.

Definition bob : user :=
  {| user_id := 2; user_name := "Bob"; user_email := "b@x.com";
     user_password := bcrypt_hash X0 "secret2" 10 "NaCl";
     user_role := "etudiant" |}.

Definition zoe : user :=
  {| user_id := 3; user_name := "Zoe"; user_email := "z@x.com";
     user_password := bcrypt_hash X0 "secret3" 10 "NaCl";
     user_role := "formateur" |}.

(** Zoe changes session 7, which does not exist. *)
Definition put_missing : request :=
  as_user X0 3 "formateur" 7
    [ ("newTitle", Str "Rocq"); ("newDate_session", Str "2025-01-15");
      ("newFormateurName", Str "Zoe") ].

(** Zoe creates a session for a trainer nobody knows. *)
Definition post_ghost : request :=
  as_user X0 3 "formateur" 0
    [ ("email", Str "ghost@x.com"); ("title", Str "Rocq");
      ("date_session", Str "2025-01-15") ].

(** Zoe creates a session of her own. *)
Definition post_rocq : request :=
  as_user X0 3 "formateur" 0
    [ ("email", Str "z@x.com"); ("title", Str "Rocq");
      ("date_session", Str "2025-01-15") ].

(** Ana, with her own token, marks Bob present at session 1. *)
Definition mark_bob_as_ana : request :=
  as_user X0 1 "etudiant" 1 [ ("email", Str "b@x.com") ].

Definition marked_once : database :=
  fst (app X0 POST_sessions_id_emargement db0 noon mark_bob_as_ana).

(** Zoe deletes session 7, which does not exist. *)
Definition delete_missing : request := as_user X0 3 "formateur" 7 [].

Definition eve_signup : request :=
  anonymous 0 (signup_body "Eve" "e@x.com" "secret5" "etudiant").

Definition eve_login : request :=
  anonymous 0 [ ("email", Str "e@x.com"); ("password", Str "secret5") ].

Definition with_eve : database :=
  fst (app X0 POST_auth_signup db0 noon eve_signup).

(** What happens between Eve's signup and her login. *)
Definition meanwhile : list call :=
  [ {| target := POST_auth_signup; at_time := noon; incoming := eve_signup |};
    {| target := POST_sessions; at_time := noon; incoming := post_rocq |};
    {| target := DELETE_sessions_id; at_time := noon;
       incoming := as_user X0 3 "formateur" 1 [] |} ].


(* ------------------------------------------------------------------ *)
(** *** Further observations *)

(** The routes whose handler holds a statement that writes. *)
Definition writes (r : route) : bool :=
  match r with
  | POST_auth_signup | POST_sessions | PUT_sessions_id
  | DELETE_sessions_id | POST_sessions_id_emargement => true
  | _ => false
  end.

(** The statuses the handler of each route sets ([res.json] alone
    answers 200). *)
Definition statuses (r : route) : list Z :=
  match r with
  | POST_auth_signup => [200; 500]
  | POST_auth_login => [200; 401]
  | POST_sessions => [200; 500]
  | GET_sessions => [200]
  | GET_sessions_id => [200; 404]
  | PUT_sessions_id => [200; 404; 500]
  | DELETE_sessions_id => [200; 500]
  | POST_sessions_id_emargement => [200; 404; 500]
  | GET_sessions_id_emargement => [200]
  end.

(** Every user has one of the two roles of [userSchema]. *)
Definition roles_known (db : database) : bool :=
  forallb (fun u => existsb (String.eqb (user_role u)) ["etudiant"; "formateur"])
          (users db).

(** Every attendance record has the status the INSERT writes. *)
Definition all_present (db : database) : bool :=
  forallb (fun e => String.eqb (emargement_status e) "1") (emargements db).

(** Every session has a title of at least four characters. *)
Definition titles_long (db : database) : bool :=
  forallb (fun s => (4 <=? String.length (session_title s))%nat) (sessions db).

(** The row of a session as both GET handlers answer it through the
    connection of [connectDb]. *)
Definition shown (s : session) : object :=
  [ ("id", Num (session_id s));
    ("title", Str (session_title s));
    ("date", Str (render_date (session_date s)));
    ("formateur_id", Num (session_formateur_id s)) ].

(** Zoe renames session 1 and moves it. *)
Definition put_algo : request :=
  as_user X0 3 "formateur" 1
    [ ("newTitle", Str "Algo II"); ("newDate_session", Str "2025-02-01");
      ("newFormateurName", Str "Zoe") ].

(** Zoe hands session 1 to a trainer nobody knows. *)
Definition put_nobody : request :=
  as_user X0 3 "formateur" 1
    [ ("newTitle", Str "Algo II"); ("newDate_session", Str "2025-02-01");
      ("newFormateurName", Str "Nobody") ].

(** Zoe deletes session 1, and asks for its roster. *)
Definition delete_one : request := as_user X0 3 "formateur" 1 [].

Definition roster_one : request := as_user X0 3 "formateur" 1 [].

(** Ana marks a trainee nobody knows. *)
Definition mark_ghost : request :=
  as_user X0 1 "etudiant" 1 [ ("email", Str "ghost@x.com") ].

(** Somebody signs up with Ana's email. *)
Definition ana_again : request :=
  anonymous 0 (signup_body "Anabel" "a@x.com" "secret9" "formateur").

Definition ana_login : request :=
  anonymous 0 [ ("email", Str "a@x.com"); ("password", Str "secret1") ].

Definition ana : user :=
  {| user_id := 1; user_name := "Ana"; user_email := "a@x.com";
     user_password := bcrypt_hash X0 "secret1" 10 "NaCl";
     user_role := "etudiant" |}.

(* ================================================================== *)
(** * Properties *)

Unset Implicit Arguments.

(** ** Dates as text *)

Lemma digit_of_range (c : ascii) (n : Z) :
  digit_of c = Some n -> 0 <= n <= 9.
Proof.
  unfold digit_of.
  destruct (_ && _) eqn:E; [|discriminate].
  intros [= <-].
  apply andb_prop in E as [L U].
  apply Z.leb_le in L, U. lia.
Qed.

Lemma digit_char_of (c : ascii) (n : Z) :
  digit_of c = Some n -> digit_char n = c.
Proof.
  intros H. pose proof (digit_of_range _ _ H) as R.
  revert H. unfold digit_of, digit_char.
  destruct (_ && _); [|discriminate].
  intros [= <-].
  rewrite Z.mod_small by lia.
  replace (48 + (Z.of_nat (nat_of_ascii c) - 48)) with (Z.of_nat (nat_of_ascii c)) by lia.
  rewrite Nat2Z.id. apply ascii_nat_embedding.
Qed.

Lemma digit_char_shift (q n : Z) : digit_char (10 * q + n) = digit_char n.
Proof.
  unfold digit_char. do 3 f_equal.
  rewrite Z.add_comm, Z.mul_comm. apply Z_mod_plus_full.
Qed.

Lemma pad_digits_snoc (k : nat) (q : Z) (c : ascii) (n : Z) :
  digit_of c = Some n ->
  pad_digits (S k) (10 * q + n) = pad_digits k q ++ String c "".
Proof.
  intros H. pose proof (digit_of_range _ _ H) as R.
  cbn [pad_digits].
  rewrite digit_char_shift, (digit_char_of _ _ H).
  do 2 f_equal.
  rewrite Z.add_comm, Z.mul_comm, Z.div_add by lia.
  rewrite Z.div_small by lia. reflexivity.
Qed.

Lemma two_digits_pad (a b : ascii) (n : Z) :
  two_digits a b = Some n -> pad_digits 2 n = String a (String b "").
Proof.
  unfold two_digits.
  destruct (digit_of a) as [x|] eqn:Ha; [|discriminate].
  destruct (digit_of b) as [y|] eqn:Hb; [|discriminate].
  intros H. assert (n = 10 * x + y) as -> by congruence. clear H.
  rewrite (pad_digits_snoc 1 x _ _ Hb).
  replace x with (10 * 0 + x) by lia.
  rewrite (pad_digits_snoc 0 0 _ _ Ha). reflexivity.
Qed.

Lemma four_digits_pad (a b c d : ascii) (n : Z) :
  four_digits a b c d = Some n ->
  pad_digits 4 n = String a (String b (String c (String d ""))).
Proof.
  unfold four_digits, two_digits.
  destruct (digit_of a) as [x|] eqn:Ha; [|discriminate].
  destruct (digit_of b) as [y|] eqn:Hb; [|discriminate].
  destruct (digit_of c) as [z|] eqn:Hc; [|discriminate].
  destruct (digit_of d) as [w|] eqn:Hd; [|discriminate].
  intros H.
  assert (n = 100 * (10 * x + y) + (10 * z + w)) as -> by congruence. clear H.
  replace (100 * (10 * x + y) + (10 * z + w))
    with (10 * (10 * (10 * (10 * 0 + x) + y) + z) + w) by lia.
  rewrite (pad_digits_snoc 3 _ _ _ Hd), (pad_digits_snoc 2 _ _ _ Hc),
          (pad_digits_snoc 1 _ _ _ Hb), (pad_digits_snoc 0 _ _ _ Ha).
  reflexivity.
Qed.

(** The text a date was read from is the text the store renders. *)
Lemma render_parse_date (s : string) (d : date) :
  parse_date s = Some d -> render_date d = s.
Proof.
  unfold parse_date.
  destruct s as [|y1 s]; [discriminate|]. destruct s as [|y2 s]; [discriminate|].
  destruct s as [|y3 s]; [discriminate|]. destruct s as [|y4 s]; [discriminate|].
  destruct s as [|h1 s]; [discriminate|]. destruct s as [|m1 s]; [discriminate|].
  destruct s as [|m2 s]; [discriminate|]. destruct s as [|h2 s]; [discriminate|].
  destruct s as [|d1 s]; [discriminate|]. destruct s as [|d2 s]; [discriminate|].
  destruct s; [|discriminate].
  destruct (_ && _) eqn:Hdash; [|discriminate].
  apply andb_prop in Hdash as [H1 H2].
  apply Ascii.eqb_eq in H1, H2. subst.
  destruct (four_digits _ _ _ _) as [y|] eqn:Ey; [|discriminate].
  destruct (two_digits m1 m2) as [m|] eqn:Em; [|discriminate].
  destruct (two_digits d1 d2) as [n|] eqn:Ed; [|discriminate].
  destruct (valid_date _); [|discriminate].
  intros [= <-].
  unfold render_date; cbn [year month day].
  rewrite (four_digits_pad _ _ _ _ _ Ey), (two_digits_pad _ _ _ Em),
          (two_digits_pad _ _ _ Ed).
  reflexivity.
Qed.

Lemma is_digit_char (n : Z) : is_digit (digit_char n) = true.
Proof.
  unfold digit_char.
  pose proof (Z.mod_pos_bound n 10 eq_refl) as B.
  remember (n mod 10) as m eqn:Em. clear Em.
  assert (m = 0 \/ m = 1 \/ m = 2 \/ m = 3 \/ m = 4 \/ m = 5 \/ m = 6
          \/ m = 7 \/ m = 8 \/ m = 9) as C by lia.
  repeat destruct C as [-> | C]; try subst m; reflexivity.
Qed.

(** Whatever [DATE] the store holds, its text has the shape
    [YYYY-MM-DD]. *)
Lemma render_date_is_ymd (d : date) : is_ymd (render_date d) = true.
Proof.
  unfold render_date. cbn [pad_digits append is_ymd].
  rewrite !is_digit_char. reflexivity.
Qed.

Lemma parse_date_is_ymd (s : string) (d : date) :
  parse_date s = Some d -> is_ymd s = true.
Proof.
  intros H. rewrite <- (render_parse_date _ _ H). apply render_date_is_ymd.
Qed.

Lemma parse_date_valid (s : string) (d : date) :
  parse_date s = Some d -> valid_date d = true.
Proof.
  unfold parse_date.
  do 10 (destruct s as [|? s]; [discriminate|]).
  destruct s; [|discriminate].
  destruct (_ && _); [|discriminate].
  destruct (four_digits _ _ _ _); [|discriminate].
  destruct (two_digits _ _); [|discriminate].
  destruct (two_digits _ _); [|discriminate].
  destruct (valid_date _) eqn:V; [|discriminate].
  intros [= <-]. exact V.
Qed.

Lemma digit_char_not_T (n : Z) : Ascii.eqb (digit_char n) "T" = false.
Proof.
  unfold digit_char.
  pose proof (Z.mod_pos_bound n 10 eq_refl) as B.
  remember (n mod 10) as m eqn:Em. clear Em.
  assert (m = 0 \/ m = 1 \/ m = 2 \/ m = 3 \/ m = 4 \/ m = 5 \/ m = 6
          \/ m = 7 \/ m = 8 \/ m = 9) as C by lia.
  repeat destruct C as [-> | C]; try subst m; reflexivity.
Qed.

(** The branch of the loop for a [Date]: the part of its ISO text
    before the "T" has the shape [YYYY-MM-DD] as long as the year, in
    UTC, has four digits. *)
Lemma iso_date_is_ymd (t : Z) :
  0 <= year (civil_from_days (t / ms_per_day)) <= 9999 ->
  is_ymd (split_head "T" (toISOString t)) = true.
Proof.
  intros [L U]. unfold toISOString, iso_year.
  apply Z.leb_le in L, U. rewrite L, U.
  cbn [andb pad_digits append split_head].
  rewrite !digit_char_not_T.
  cbn [Ascii.eqb Bool.eqb split_head is_ymd andb].
  rewrite !is_digit_char. reflexivity.
Qed.

(* ------------------------------------------------------------------ *)
(** ** The formatting loop of the GET handlers *)

Lemma format_value_id (v : value) :
  is_date_instance v = false -> format_value v = v.
Proof. destruct v; [reflexivity | reflexivity | discriminate | reflexivity]. Qed.

Lemma format_row_id (row : object) :
  no_date_instance row = true -> format_row row = row.
Proof.
  unfold no_date_instance, format_row.
  induction row as [|[k v] row IH]; cbn; [reflexivity|].
  intros H. apply andb_prop in H as [Hv Hrow].
  apply negb_true_iff in Hv.
  rewrite (format_value_id _ Hv), (IH Hrow). reflexivity.
Qed.

Lemma format_rows_id (rows : list object) :
  forallb no_date_instance rows = true -> map format_row rows = rows.
Proof.
  induction rows as [|row rows IH]; cbn; [reflexivity|].
  intros H. apply andb_prop in H as [Hrow Hrows].
  rewrite (format_row_id _ Hrow), (IH Hrows). reflexivity.
Qed.

(** With [dateStrings] set the driver builds no [Date]. *)
Lemma date_column_text (c : connection) (d : date) :
  dateStrings c = true -> date_column c d = Str (render_date d).
Proof. unfold date_column. intros ->. reflexivity. Qed.

Lemma session_row_no_date (c : connection) (s : session) :
  dateStrings c = true -> no_date_instance (session_row c s) = true.
Proof.
  intros H. unfold session_row, no_date_instance. cbn.
  rewrite (date_column_text _ _ H). reflexivity.
Qed.

Lemma session_rows_no_date (c : connection) (l : list session) :
  dateStrings c = true ->
  forallb no_date_instance (map (session_row c) l) = true.
Proof.
  intros H. induction l as [|s l IH]; cbn [map forallb]; [reflexivity|].
  rewrite (session_row_no_date _ s H), IH. reflexivity.
Qed.

(** C10.  The connection [connectDb] opens has [dateStrings] set, so no
    row of a query holds a [Date] instance; the loop that turns [Date]s
    into text changes nothing, and GET /sessions and GET /sessions/:id
    answer with the rows exactly as the driver delivered them. *)
Theorem format_loop_is_identity (db : database) (req : request) :
  let all := map (session_row connectDb) (select_sessions db) in
  let one := map (session_row connectDb) (select_session_by_id db (params_id req)) in
  dateStrings connectDb = true
  /\ forallb no_date_instance all = true
  /\ forallb no_date_instance one = true
  /\ map format_row all = all
  /\ map format_row one = one
  /\ listSessions connectDb db = (db, {| status := 200; sent := JsonRows all |})
  /\ getSession connectDb db req =
       (db, match one with
            | [] => {| status := 404; sent := Text "Session not found" |}
            | _ => {| status := 200; sent := JsonRows one |}
            end).
Proof.
  intros all one.
  assert (Hall : forallb no_date_instance all = true)
    by (apply session_rows_no_date; reflexivity).
  assert (Hone : forallb no_date_instance one = true)
    by (apply session_rows_no_date; reflexivity).
  repeat split; auto using format_rows_id.
  - unfold listSessions. fold all. rewrite (format_rows_id _ Hall). reflexivity.
  - unfold getSession. fold one. rewrite (format_rows_id _ Hone).
    destruct one; reflexivity.
Qed.

(* ------------------------------------------------------------------ *)
(** ** The store keeps its keys fresh and its dates valid *)

Lemma forallb_weaken {A} (f g : A -> bool) (l : list A) :
  (forall x, f x = true -> g x = true) ->
  forallb f l = true -> forallb g l = true.
Proof.
  intros W H. rewrite forallb_forall in *. auto.
Qed.

Lemma forallb_filter {A} (f p : A -> bool) (l : list A) :
  forallb f l = true -> forallb f (filter p l) = true.
Proof.
  rewrite !forallb_forall. intros H x Hx.
  apply filter_In in Hx as [Hx _]. auto.
Qed.

Lemma filter_nothing {A} (p : A -> bool) (l : list A) :
  (forall x, In x l -> p x = false) -> filter p l = [].
Proof.
  induction l as [|x l IH]; cbn; [reflexivity|].
  intros H. rewrite (H x (or_introl eq_refl)). apply IH.
  intros y Hy. apply H. now right.
Qed.

Lemma filter_everything {A} (p : A -> bool) (l : list A) :
  (forall x, In x l -> p x = true) -> filter p l = l.
Proof.
  induction l as [|x l IH]; cbn; [reflexivity|].
  intros H. rewrite (H x (or_introl eq_refl)). f_equal. apply IH.
  intros y Hy. apply H. now right.
Qed.

Lemma well_formed_parts (db : database) :
  well_formed db = true <->
  forallb (fun u => user_id u <? user_auto db) (users db) = true
  /\ forallb (fun s => (session_id s <? session_auto db)
                       && valid_date (session_date s)) (sessions db) = true
  /\ forallb (fun e => emargement_id e <? emargement_auto db) (emargements db) = true.
Proof.
  unfold well_formed. rewrite !andb_true_iff. tauto.
Qed.

Lemma well_formed_empty : well_formed empty_database = true.
Proof. reflexivity. Qed.

Lemma well_formed_insert_user db name email password role db' h :
  well_formed db = true ->
  insert_user db name email password role = Ok (db', h) ->
  well_formed db' = true.
Proof.
  intros W. unfold insert_user.
  destruct (select_user_by_email db email); [|discriminate].
  intros [= <- _].
  apply well_formed_parts in W as (U & S & E).
  apply well_formed_parts; cbn; repeat split; auto.
  rewrite forallb_app; cbn. apply andb_true_iff; split.
  - revert U. apply forallb_weaken. intros u Hu.
    apply Z.ltb_lt in Hu. apply Z.ltb_lt. lia.
  - rewrite andb_true_r. apply Z.ltb_lt. lia.
Qed.

Lemma well_formed_insert_session fk db title date_text f db' h :
  well_formed db = true ->
  insert_session fk db title date_text f = Ok (db', h) ->
  well_formed db' = true.
Proof.
  intros W. unfold insert_session.
  destruct (parse_date date_text) as [d|] eqn:P; [|discriminate].
  destruct (_ && _); [discriminate|].
  intros [= <- _].
  apply well_formed_parts in W as (U & S & E).
  apply well_formed_parts; cbn; repeat split; auto.
  rewrite forallb_app; cbn. apply andb_true_iff; split.
  - revert S. apply forallb_weaken. intros s Hs.
    apply andb_prop in Hs as [Hs Hd]. rewrite Hd, andb_true_r.
    apply Z.ltb_lt in Hs. apply Z.ltb_lt. lia.
  - rewrite (parse_date_valid _ _ P), !andb_true_r. apply Z.ltb_lt. lia.
Qed.

Lemma well_formed_update_session fk db title date_text f id db' h :
  well_formed db = true ->
  update_session fk db title date_text f id = Ok (db', h) ->
  well_formed db' = true.
Proof.
  intros W. unfold update_session.
  destruct (select_session_by_id db id); [intros [= <- _]; exact W|].
  destruct (parse_date date_text) as [d|] eqn:P; [|discriminate].
  destruct (_ && _); [discriminate|].
  intros [= <- _].
  apply well_formed_parts in W as (U & S & E).
  apply well_formed_parts; cbn; repeat split; auto.
  rewrite forallb_forall in *. intros s' Hs'.
  apply in_map_iff in Hs' as (s0 & <- & Hs0).
  specialize (S _ Hs0).
  destruct (session_id s0 =? id) eqn:Q; [|exact S].
  apply Z.eqb_eq in Q. cbn. rewrite <- Q.
  apply andb_prop in S as [S _].
  rewrite S, (parse_date_valid _ _ P). reflexivity.
Qed.

Lemma well_formed_delete_session fk db id db' h :
  well_formed db = true ->
  delete_session fk db id = Ok (db', h) ->
  well_formed db' = true.
Proof.
  intros W. unfold delete_session.
  apply well_formed_parts in W as (U & S & E).
  destruct (select_session_by_id db id),
    (filter (fun e => emargement_session_id e =? id) (emargements db)), fk;
    try discriminate; intros [= <- _];
    apply well_formed_parts; cbn; repeat split;
    auto using forallb_filter.
Qed.

Lemma well_formed_insert_emargement fk db s e db' h :
  well_formed db = true ->
  insert_emargement fk db s e = Ok (db', h) ->
  well_formed db' = true.
Proof.
  intros W. unfold insert_emargement.
  destruct (_ && _); [discriminate|].
  intros [= <- _].
  apply well_formed_parts in W as (U & S & E).
  apply well_formed_parts; cbn; repeat split; auto.
  rewrite forallb_app; cbn. apply andb_true_iff; split.
  - revert E. apply forallb_weaken. intros x Hx.
    apply Z.ltb_lt in Hx. apply Z.ltb_lt. lia.
  - rewrite andb_true_r. apply Z.ltb_lt. lia.
Qed.

(** A handler that catches leaves the store untouched, or holds the
    store its statement produced. *)
Lemma catch_cases db (r : result thrown (database * response)) db' res :
  catch db r = (db', res) ->
  (db' = db /\ exists e, r = Err e) \/ r = Ok (db', res).
Proof.
  destruct r as [[d x]|e]; cbn; intros [= <- <-]; eauto.
Qed.

Lemma sql_ok {A} (r : result sql_error A) (a : A) :
  sql r = Ok a -> r = Ok a.
Proof. destruct r; cbn; congruence. Qed.

(** Every handler keeps the store well formed. *)
Lemma well_formed_handler X c r db a req :
  well_formed db = true ->
  well_formed (fst (handler X c r db a req)) = true.
Proof.
  intros W.
  destruct r; cbn [handler].
  - unfold signup.
    destruct (insert_user _ _ _ _ _) as [[d h]|e] eqn:I; cbn; auto.
    eauto using well_formed_insert_user.
  - unfold login.
    destruct (select_user_by_email _ _); cbn; auto.
    destruct (negb _); cbn; auto.
  - unfold createSession.
    destruct (select_user_by_email _ _); cbn; auto.
    destruct (insert_session _ _ _ _ _) as [[d h]|e] eqn:I; cbn; auto.
    eauto using well_formed_insert_session.
  - exact W.
  - unfold getSession. destruct (map _ _); exact W.
  - unfold updateSession.
    destruct (select_user_by_name _ _); cbn; auto.
    destruct (update_session _ _ _ _ _ _) as [[d h]|e] eqn:I; cbn; auto.
    eauto using well_formed_update_session.
  - unfold deleteSession.
    destruct (delete_session _ _ _) as [[d h]|e] eqn:I; cbn; auto.
    eauto using well_formed_delete_session.
  - unfold recordAttendance.
    destruct (select_user_by_email _ _); cbn; auto.
    destruct (insert_emargement _ _ _ _) as [[d h]|e] eqn:I; cbn; auto.
    eauto using well_formed_insert_emargement.
  - exact W.
Qed.

Lemma well_formed_serve X c r db a req :
  well_formed db = true ->
  well_formed (fst (serve X c r db a req)) = true.
Proof.
  intros W. unfold serve.
  destruct (run_chain _ _ _) as [req'|e]; [|exact W].
  pose proof (well_formed_handler X c r db a req' W) as H.
  destruct (handler _ _ _ _ _ _). exact H.
Qed.

(** Every store the service reaches from the empty one is well formed. *)
Lemma well_formed_run X (cs : list call) db :
  well_formed db = true -> well_formed (fst (run X db cs)) = true.
Proof.
  revert db. induction cs as [|c cs IH]; intros db W; cbn; [exact W|].
  pose proof (well_formed_serve X connectDb (target c) db (at_time c) (incoming c) W) as H.
  unfold app. destruct (serve _ _ _ _ _ _) as [db1 o]. cbn in H.
  specialize (IH db1 H). destruct (run X db1 cs). exact IH.
Qed.

Corollary reachable_well_formed X (cs : list call) :
  well_formed (fst (run X empty_database cs)) = true.
Proof. apply well_formed_run, well_formed_empty. Qed.

(* ------------------------------------------------------------------ *)
(** ** Middleware chains *)

Lemma run_middleware_keeps X m req req' :
  run_middleware X m req = Ok req' ->
  body req' = body req /\ params_id req' = params_id req
  /\ authorization req' = authorization req.
Proof.
  destruct m; cbn.
  - intros [= <-]. auto.
  - unfold validateData. destruct (issues _ _ _); [|discriminate].
    intros [= <-]. auto.
  - unfold checkAuthForm, requireRole.
    destruct (authorization req) as [[?|t]|]; try discriminate.
    destruct (jwt_verify _ _ _); try discriminate.
    destruct (String.eqb _ _); try discriminate.
    intros [= <-]. auto.
  - unfold checkAuthEtud, requireRole.
    destruct (authorization req) as [[?|t]|]; try discriminate.
    destruct (jwt_verify _ _ _); try discriminate.
    destruct (String.eqb _ _); try discriminate.
    intros [= <-]. auto.
Qed.

Lemma run_chain_keeps X ms req req' :
  run_chain X ms req = Ok req' ->
  body req' = body req /\ params_id req' = params_id req
  /\ authorization req' = authorization req.
Proof.
  revert req. induction ms as [|m ms IH]; cbn; intros req.
  - intros [= <-]. auto.
  - destruct (run_middleware X m req) as [r1|e] eqn:M; cbn; [|discriminate].
    intros H. apply IH in H as (B & P & A).
    apply run_middleware_keeps in M as (B1 & P1 & A1).
    repeat split; congruence.
Qed.

Lemma run_chain_validated X ms req req' s :
  run_chain X ms req = Ok req' ->
  In (validate s) ms -> issues X s (body req) = [].
Proof.
  revert req. induction ms as [|m ms IH]; cbn; intros req H I;
    [destruct I|].
  destruct (run_middleware X m req) as [r1|e] eqn:M; cbn in H;
    [|discriminate].
  destruct I as [E|I].
  - subst m. cbn in M. unfold validateData in M.
    destruct (issues X s (body req)); [reflexivity|discriminate].
  - apply run_middleware_keeps in M as (B1 & _). rewrite <- B1. eauto.
Qed.

Lemma issues_nil X s o :
  issues X s o = [] ->
  forall k c, In (k, c) s -> passes X c (prop o k) = true.
Proof.
  unfold issues. intros H k c I.
  apply map_eq_nil in H.
  destruct (passes X c (prop o k)) eqn:P; [reflexivity|].
  assert (In (k, c) (filter (fun fc => negb (passes X (snd fc) (prop o (fst fc)))) s)) as J
    by (apply filter_In; cbn; rewrite P; auto).
  rewrite H in J. destruct J.
Qed.

Lemma passes_string X c v :
  passes X c v = true -> exists s, v = Some (Str s).
Proof.
  destruct v as [[| s | |]|]; cbn; try discriminate. eauto.
Qed.

Lemma field_prop o k s : prop o k = Some (Str s) -> field o k = s.
Proof. unfold field. intros ->. reflexivity. Qed.

(** A validated field is the string the handler reads. *)
Lemma validated_field X s o k c :
  issues X s o = [] -> In (k, c) s ->
  prop o k = Some (Str (field o k)) /\ passes X c (Some (Str (field o k))) = true.
Proof.
  intros H I. pose proof (issues_nil X s o H k c I) as P.
  destruct (passes_string X c _ P) as [v E].
  rewrite (field_prop _ _ _ E). rewrite E in P. auto.
Qed.

(* ------------------------------------------------------------------ *)
(** ** Sessions: create, then read *)

Lemma select_created_session fk db title date_text f db' h :
  well_formed db = true ->
  insert_session fk db title date_text f = Ok (db', h) ->
  exists d,
    parse_date date_text = Some d /\
    select_session_by_id db' (insertId h) =
      [ {| session_id := insertId h; session_title := title;
           session_date := d; session_formateur_id := f |} ].
Proof.
  intros W. unfold insert_session.
  destruct (parse_date date_text) as [d|] eqn:P; [|discriminate].
  destruct (_ && _); [discriminate|].
  intros [= <- <-]. exists d. split; [reflexivity|].
  unfold select_session_by_id; cbn.
  rewrite filter_app; cbn. rewrite Z.eqb_refl.
  rewrite filter_nothing; [reflexivity|].
  intros s Hs. apply well_formed_parts in W as (_ & S & _).
  rewrite forallb_forall in S. specialize (S s Hs).
  apply andb_prop in S as [S _]. apply Z.ltb_lt in S.
  apply Z.eqb_neq. lia.
Qed.

Lemma date_is_ymd_session_row (s : session) :
  date_is_ymd (format_row (session_row connectDb s)) = true.
Proof.
  unfold date_is_ymd, session_row. cbn. apply render_date_is_ymd.
Qed.

Lemma dates_are_ymd (l : list session) :
  forallb date_is_ymd (map format_row (map (session_row connectDb) l)) = true.
Proof.
  induction l as [|s l IH]; cbn [map forallb]; [reflexivity|].
  rewrite date_is_ymd_session_row, IH. reflexivity.
Qed.

(** C7.  When POST /sessions answers 200, GET /sessions/:id on the id
    it returned answers with one row that holds the title and the date
    of the request unchanged; and in every answer of GET /sessions and
    GET /sessions/:id the date of every row is text of the shape
    YYYY-MM-DD, whatever [DATE] the store holds. *)
Theorem create_then_get_round_trip
    (X : platform) (db db1 : database) (a : ambient) (req : request)
    (res : response) :
  well_formed db = true ->
  app X POST_sessions db a req = (db1, Responded res) ->
  status res = 200 ->
  (exists id title date f,
      prop (body req) "title" = Some (Str title)
      /\ prop (body req) "date_session" = Some (Str date)
      /\ sent res = Json [ ("id", Num id); ("title", Str title);
                           ("date", Str date); ("id_formateur", Num f) ]
      /\ forall a' req',
          params_id req' = id ->
          app X GET_sessions_id db1 a' req' =
            (db1, Responded
               {| status := 200;
                  sent := JsonRows [ [ ("id", Num id); ("title", Str title);
                                       ("date", Str date);
                                       ("formateur_id", Num f) ] ] |}))
  /\ (forall r db' a' req' db'' res' rows,
        r = GET_sessions \/ r = GET_sessions_id ->
        app X r db' a' req' = (db'', Responded res') ->
        sent res' = JsonRows rows ->
        forallb date_is_ymd rows = true).
Proof.
  intros W H S. split.
  - unfold app, serve in H.
    destruct (run_chain X (chain POST_sessions) req) as [req1|e] eqn:C;
      [|discriminate].
    pose proof (run_chain_keeps _ _ _ _ C) as (B & _).
    assert (V : issues X sessionsSchema (body req) = [])
      by (eapply run_chain_validated; [exact C | cbn; auto]).
    destruct (validated_field X _ _ "title" (MinString 4) V) as [Ht _];
      [cbn; auto|].
    destruct (validated_field X _ _ "date_session" DateString V) as [Hd _];
      [cbn; auto|].
    cbn [handler] in H. unfold createSession in H. rewrite B in H.
    destruct (select_user_by_email db _) as [|row0 rest]; cbn in H.
    { injection H as <- <-. discriminate S. }
    destruct (insert_session _ _ _ _ _) as [[d h]|e] eqn:I; cbn in H.
    2:{ injection H as <- <-. discriminate S. }
    injection H as <- <-.
    destruct (select_created_session _ _ _ _ _ _ _ W I) as (dt & P & Q).
    exists (insertId h), (field (body req) "title"),
      (field (body req) "date_session"), (user_id row0).
    repeat split; auto.
    intros a' req' E. unfold app, serve. cbn [chain run_chain handler].
    unfold getSession. rewrite E, Q.
    rewrite <- (render_parse_date _ _ P). reflexivity.
  - intros r db' a' req' db'' res' rows [-> | ->]; unfold app, serve;
      cbn [chain run_chain handler].
    + unfold listSessions. intros [= <- <-]. cbn. intros [= <-].
      apply dates_are_ymd.
    + unfold getSession.
      destruct (map (session_row connectDb) (select_session_by_id db' (params_id req')))
        as [|row rows'] eqn:E.
      * intros [= <- <-]. discriminate.
      * intros [= <- <-]. cbn [sent]. intros [= <-].
        change (forallb date_is_ymd (map format_row (row :: rows')) = true).
        rewrite <- E. apply dates_are_ymd.
Qed.

(* ------------------------------------------------------------------ *)
(** ** Accounts: signup and login *)

(** A password verifies against the hash made from it, whatever the
    salt and the cost. *)
Lemma bcrypt_compare_hash X data rounds salt :
  bcrypt_compare X data (bcrypt_hash X data rounds salt) = true.
Proof. unfold bcrypt_compare, bcrypt_hash. cbn. apply String.eqb_refl. Qed.

(** A token verifies under the key it was signed with, and yields the
    payload that was signed. *)
Lemma jwt_verify_sign X p key iat :
  jwt_verify X (jwt_sign X p key iat) key = Some p.
Proof. unfold jwt_verify, jwt_sign. cbn. now rewrite String.eqb_refl. Qed.

Lemma select_inserted_user db name email password role db' h :
  insert_user db name email password role = Ok (db', h) ->
  select_user_by_email db' email =
    [ {| user_id := insertId h; user_name := name; user_email := email;
         user_password := password; user_role := role |} ].
Proof.
  unfold insert_user.
  destruct (select_user_by_email db email) eqn:E; [|discriminate].
  intros [= <- <-]. unfold select_user_by_email in *. cbn.
  rewrite filter_app, E. cbn. now rewrite String.eqb_refl.
Qed.

(** Only signup writes to the user table, and it refuses an email that
    is taken: the rows an email selects never change once there is one. *)
Lemma selected_user_handler X c r db a req email u :
  select_user_by_email db email = [u] ->
  select_user_by_email (fst (handler X c r db a req)) email = [u].
Proof.
  intros Q. destruct r; cbn [handler].
  - unfold signup, insert_user.
    destruct (select_user_by_email db (field (body req) "email")) eqn:E;
      cbn; [|exact Q].
    unfold select_user_by_email in *. cbn. rewrite filter_app, Q. cbn.
    destruct (String.eqb (field (body req) "email") email) eqn:N; [|reflexivity].
    apply String.eqb_eq in N. rewrite N, Q in E. discriminate.
  - unfold login.
    destruct (select_user_by_email db (field (body req) "email")); cbn; auto.
    destruct (negb _); cbn; auto.
  - unfold createSession, insert_session.
    destruct (select_user_by_email db (field (body req) "email")); cbn; auto.
    destruct (parse_date _); cbn; auto.
    destruct (_ && _); cbn; auto.
  - exact Q.
  - unfold getSession. destruct (map _ _); exact Q.
  - unfold updateSession, update_session.
    destruct (select_user_by_name _ _); cbn; auto.
    destruct (select_session_by_id _ _); cbn; auto.
    destruct (parse_date _); cbn; auto.
    destruct (_ && _); cbn; auto.
  - unfold deleteSession, delete_session.
    destruct (select_session_by_id _ _),
      (filter (fun e => emargement_session_id e =? params_id req) (emargements db)),
      (foreign_keys X); cbn; auto.
  - unfold recordAttendance, insert_emargement.
    destruct (select_user_by_email db (field (body req) "email")); cbn; auto.
    destruct (_ && _); cbn; auto.
  - exact Q.
Qed.

Lemma selected_user_run X cs db email u :
  select_user_by_email db email = [u] ->
  select_user_by_email (fst (run X db cs)) email = [u].
Proof.
  revert db. induction cs as [|c cs IH]; intros db Q; cbn; [exact Q|].
  unfold app, serve.
  destruct (run_chain X (chain (target c)) (incoming c)) as [req1|e].
  - pose proof (selected_user_handler X connectDb (target c) db (at_time c)
                  req1 email u Q) as H.
    destruct (handler _ _ _ _ _ _) as [db1 res]. cbn in H.
    specialize (IH db1 H). destruct (run X db1 cs). exact IH.
  - specialize (IH db Q). destruct (run X db cs). exact IH.
Qed.

(** C6.  When POST /auth/signup answers 200, a POST /auth/login with
    the same email and password, at once or after any other requests,
    answers 200 with a token that verifies under the key of the
    process, and whose payload holds the role given at signup and the
    id signup returned. *)
Theorem signup_then_login
    (X : platform) (db db1 : database) (a a' : ambient) (req req' : request)
    (res : response) (later : list call) :
  app X POST_auth_signup db a req = (db1, Responded res) ->
  status res = 200 ->
  prop (body req') "email" = prop (body req) "email" ->
  prop (body req') "password" = prop (body req) "password" ->
  let db2 := fst (run X db1 later) in
  exists tok id name email role,
    app X POST_auth_login db2 a' req' =
      (db2, Responded {| status := 200; sent := JsonToken tok |})
    /\ jwt_verify X tok (JWT_KEY X) = Some {| p_id := id; p_role := role |}
    /\ tk_payload tok = {| p_id := id; p_role := role |}
    /\ prop (body req) "role" = Some (Str role)
    /\ sent res = Json [ ("id", Num id); ("name", Str name);
                         ("email", Str email); ("role", Str role) ].
Proof.
  intros H S Ee Ep db2.
  unfold app, serve in H.
  destruct (run_chain X (chain POST_auth_signup) req) as [req1|e] eqn:C;
    [|discriminate].
  pose proof (run_chain_keeps _ _ _ _ C) as (B & _).
  assert (V : issues X userSchema (body req) = [])
    by (eapply run_chain_validated; [exact C | cbn; auto]).
  destruct (validated_field X _ _ "email" Email V) as [He Pe]; [cbn; auto|].
  destruct (validated_field X _ _ "password" (MinString 6) V) as [Hp Pp];
    [cbn; auto 6|].
  destruct (validated_field X _ _ "role" (Enum ["etudiant"; "formateur"]) V)
    as [Hr _]; [cbn; auto 6|].
  cbn [handler] in H. unfold signup in H. rewrite B in H.
  destruct (insert_user _ _ _ _ _) as [[d h]|e] eqn:I; cbn in H.
  2:{ injection H as <- <-. discriminate S. }
  injection H as <- <-.
  pose proof (select_inserted_user _ _ _ _ _ _ _ I) as Q.
  apply (selected_user_run X later) in Q. fold db2 in Q.
  set (p := {| p_id := insertId h; p_role := field (body req) "role" |}).
  exists (jwt_sign X p (JWT_KEY X) (now a')), (insertId h),
    (field (body req) "name"), (field (body req) "email"),
    (field (body req) "role").
  repeat split; auto using jwt_verify_sign.
  assert (V' : issues X loginSchema (body req') = []).
  { unfold issues, loginSchema. cbn [filter fst snd].
    rewrite Ee, Ep, He, Hp, Pe, Pp. reflexivity. }
  unfold app, serve. cbn [chain run_chain run_middleware bind].
  unfold validateData. rewrite V'. cbn [bind handler].
  unfold login.
  assert (Fe : field (body req') "email" = field (body req) "email")
    by (unfold field; now rewrite Ee).
  assert (Fp : field (body req') "password" = field (body req) "password")
    by (unfold field; now rewrite Ep).
  rewrite Fe, Fp, Q. cbn [user_password user_id user_role].
  rewrite bcrypt_compare_hash. reflexivity.
Qed.

Lemma app_login X db a req :
  issues X loginSchema (body req) = [] ->
  app X POST_auth_login db a req =
    (fst (login X db a req), Responded (snd (login X db a req))).
Proof.
  intros V. unfold app, serve. cbn [chain run_chain run_middleware bind].
  unfold validateData. rewrite V. cbn [bind handler].
  destruct (login X db a req). reflexivity.
Qed.

Lemma app_login_refused X db a req :
  issues X loginSchema (body req) <> [] ->
  app X POST_auth_login db a req =
    (db, Refused (ValidationError (issues X loginSchema (body req)))).
Proof.
  intros V. unfold app, serve. cbn [chain run_chain run_middleware bind].
  unfold validateData. destruct (issues X loginSchema (body req)); [tauto|].
  reflexivity.
Qed.

(** C5.  For a body that passes the login schema, POST /auth/login
    answers 401 when no user has the email, and 401 when the password
    does not verify against the stored hash of the user found; in both
    cases, for any body, no token is issued. *)
Theorem login_failures_are_401
    (X : platform) (db : database) (a : ambient) (req : request) :
  let rows := select_user_by_email db (field (body req) "email") in
  (issues X loginSchema (body req) = [] ->
   rows = [] ->
   app X POST_auth_login db a req =
     (db, Responded {| status := 401; sent := Text "User not found" |}))
  /\ (issues X loginSchema (body req) = [] ->
      forall row0 rest,
        rows = row0 :: rest ->
        bcrypt_compare X (field (body req) "password") (user_password row0) = false ->
        app X POST_auth_login db a req =
          (db, Responded {| status := 401; sent := Text "Unauthorized" |}))
  /\ (rows = []
      \/ (exists row0 rest,
            rows = row0 :: rest
            /\ bcrypt_compare X (field (body req) "password")
                 (user_password row0) = false) ->
      issued_token (snd (app X POST_auth_login db a req)) = None).
Proof.
  intros rows. subst rows.
  split; [|split].
  - intros V E. rewrite (app_login X db a req V). unfold login.
    rewrite E. reflexivity.
  - intros V row0 rest E C. rewrite (app_login X db a req V). unfold login.
    rewrite E, C. reflexivity.
  - intros F.
    destruct (issues X loginSchema (body req)) as [|f fs] eqn:V.
    + rewrite (app_login X db a req V). unfold login.
      destruct F as [-> | (row0 & rest & -> & ->)]; reflexivity.
    + rewrite app_login_refused by (rewrite V; discriminate).
      reflexivity.
Qed.

(* ------------------------------------------------------------------ *)
(** ** Attendance *)

Lemma requireRole_ok X role req req' :
  requireRole X role req = Ok req' ->
  exists tok caller,
    authorization req = Some (Bearer tok)
    /\ jwt_verify X tok (JWT_KEY X) = Some caller
    /\ p_role caller = role
    /\ attached req' = Some caller.
Proof.
  unfold requireRole.
  destruct (authorization req) as [[?|t]|]; try discriminate.
  destruct (jwt_verify _ _ _) as [p|] eqn:V; try discriminate.
  destruct (String.eqb _ _) eqn:R; try discriminate.
  intros [= <-]. apply String.eqb_eq in R. eauto 6.
Qed.

(** What a 200 of POST /sessions/:id/emargement means: the role check
    let a trainee through, the email of the body resolved to a user,
    and one record for that user was appended. *)
Lemma recordAttendance_200 X db a req db1 res :
  app X POST_sessions_id_emargement db a req = (db1, Responded res) ->
  status res = 200 ->
  exists req1 row0 rest,
    run_chain X (chain POST_sessions_id_emargement) req = Ok req1
    /\ checkAuthEtud X req = Ok req1
    /\ select_user_by_email db (field (body req) "email") = row0 :: rest
    /\ (checks (foreign_keys X)
        && negb (has_session db (params_id req) && has_user db (user_id row0))) = false
    /\ db1 = {| users := users db;
                sessions := sessions db;
                emargements :=
                  (emargements db ++
                   [ {| emargement_id := emargement_auto db;
                        emargement_session_id := params_id req;
                        emargement_etudiant_id := user_id row0;
                        emargement_status := "1" |} ])%list;
                user_auto := user_auto db;
                session_auto := session_auto db;
                emargement_auto := emargement_auto db + 1 |}
    /\ res = {| status := 200;
                sent := Json [ ("id", Num (emargement_auto db));
                               ("id_session", Num (params_id req));
                               ("id_etudiant", Num (user_id row0));
                               ("status", Str "1") ] |}.
Proof.
  intros H S. unfold app, serve in H.
  destruct (run_chain X (chain POST_sessions_id_emargement) req) as [req1|e] eqn:C;
    [|discriminate].
  pose proof (run_chain_keeps _ _ _ _ C) as (B & P & _).
  assert (A : checkAuthEtud X req = Ok req1).
  { cbn [chain run_chain run_middleware bind] in C.
    destruct (checkAuthEtud X req) as [r|] eqn:A; [|discriminate].
    cbn [bind] in C. unfold validateData in C.
    destruct (issues _ _ _); [|discriminate]. exact C. }
  cbn [handler] in H. unfold recordAttendance in H. rewrite B, P in H.
  destruct (select_user_by_email db _) as [|row0 rest] eqn:Q; cbn in H.
  { injection H as <- <-. discriminate S. }
  unfold insert_emargement in H.
  destruct (_ && _) eqn:K; cbn in H.
  { injection H as <- <-. discriminate S. }
  injection H as <- <-.
  exists req1, row0, rest. repeat split; auto.
Qed.

(** C3.  Nothing keeps a (session, trainee) pair unique: when
    POST /sessions/:id/emargement answers 200, the same request sent
    again answers 200 too, with another record id, and the store then
    holds both records for the pair. *)
Theorem attendance_twice_duplicates
    (X : platform) (db db1 : database) (a a' : ambient) (req : request)
    (res1 : response) :
  app X POST_sessions_id_emargement db a req = (db1, Responded res1) ->
  status res1 = 200 ->
  exists db2 id1 id2 id_etudiant,
    let record id :=
      {| emargement_id := id; emargement_session_id := params_id req;
         emargement_etudiant_id := id_etudiant; emargement_status := "1" |} in
    let answer id :=
      {| status := 200;
         sent := Json [ ("id", Num id); ("id_session", Num (params_id req));
                        ("id_etudiant", Num id_etudiant); ("status", Str "1") ] |} in
    res1 = answer id1
    /\ app X POST_sessions_id_emargement db1 a' req = (db2, Responded (answer id2))
    /\ id1 <> id2
    /\ emargements db2 = (emargements db ++ [record id1; record id2])%list
    /\ attendance_of db2 (params_id req) id_etudiant =
         (attendance_of db (params_id req) id_etudiant ++ [record id1; record id2])%list.
Proof.
  intros H S.
  destruct (recordAttendance_200 X db a req db1 res1 H S)
    as (req1 & row0 & rest & C & _ & Q & K & -> & ->).
  pose proof (run_chain_keeps _ _ _ _ C) as (B & P & _).
  eexists _, (emargement_auto db), (emargement_auto db + 1), (user_id row0).
  cbn zeta. split; [reflexivity|]. split; [|split; [lia|]].
  - unfold app, serve. rewrite C. cbn [handler]. unfold recordAttendance.
    rewrite B, P. unfold select_user_by_email in *. cbn [users]. rewrite Q.
    cbn [bind catch]. unfold insert_emargement, has_session, has_user in *.
    cbn [users sessions emargements emargement_auto]. rewrite K.
    cbn [sql bind catch insertId]. reflexivity.
  - cbn [emargements]. split.
    + rewrite <- app_assoc. reflexivity.
    + unfold attendance_of. cbn [emargements].
      rewrite <- app_assoc, filter_app. f_equal.
      cbn. rewrite !Z.eqb_refl. reflexivity.
Qed.

(** C4, as the code has it.  When POST /sessions/:id/emargement answers
    200, the record it created is for the first user whose email is the
    one in the body; of the caller only the role of the verified token
    is looked at, never the id. *)
Theorem attendance_is_for_the_email_given
    (X : platform) (db db1 : database) (a : ambient) (req : request)
    (res : response) :
  app X POST_sessions_id_emargement db a req = (db1, Responded res) ->
  status res = 200 ->
  exists row0 rest id tok caller,
    select_user_by_email db (field (body req) "email") = row0 :: rest
    /\ sent res = Json [ ("id", Num id); ("id_session", Num (params_id req));
                         ("id_etudiant", Num (user_id row0)); ("status", Str "1") ]
    /\ emargements db1 =
         (emargements db ++
          [ {| emargement_id := id; emargement_session_id := params_id req;
               emargement_etudiant_id := user_id row0;
               emargement_status := "1" |} ])%list
    /\ authorization req = Some (Bearer tok)
    /\ jwt_verify X tok (JWT_KEY X) = Some caller
    /\ p_role caller = "etudiant".
Proof.
  intros H S.
  destruct (recordAttendance_200 X db a req db1 res H S)
    as (req1 & row0 & rest & _ & A & Q & _ & -> & ->).
  destruct (requireRole_ok X _ _ _ A) as (tok & caller & Ha & Hv & Hr & _).
  exists row0, rest, (emargement_auto db), tok, caller.
  repeat split; auto.
Qed.

(* ------------------------------------------------------------------ *)
(** ** Sessions: update and delete of an id that is not there *)

Lemma existsb_false {A} (f : A -> bool) (l : list A) :
  existsb f l = false -> forall x, In x l -> f x = false.
Proof.
  induction l as [|y l IH]; cbn; [intros _ x []|].
  intros H x [<- | I]; apply orb_false_iff in H as [H1 H2]; auto.
Qed.

Lemma select_missing_session db id :
  has_session db id = false -> select_session_by_id db id = [].
Proof.
  intros H. apply filter_nothing. exact (existsb_false _ _ H).
Qed.

Lemma delete_session_missing fk db id :
  has_session db id = false ->
  delete_session fk db id = Ok (db, {| insertId := 0; affectedRows := 0 |}).
Proof.
  intros H. unfold delete_session.
  rewrite (select_missing_session db id H).
  rewrite filter_everything.
  - destruct db; cbn. destruct fk; reflexivity.
  - intros s I. now rewrite (existsb_false _ _ H s I).
Qed.

Lemma update_session_missing fk db title date_text f id :
  has_session db id = false ->
  update_session fk db title date_text f id =
    Ok (db, {| insertId := 0; affectedRows := 0 |}).
Proof.
  intros H. unfold update_session.
  now rewrite (select_missing_session db id H).
Qed.

Lemma deleted_session_is_missing fk db id db' h :
  delete_session fk db id = Ok (db', h) -> has_session db' id = false.
Proof.
  unfold delete_session. intros H.
  assert (E : sessions db' = filter (fun s => negb (session_id s =? id)) (sessions db)).
  { destruct (select_session_by_id db id),
      (filter (fun e => emargement_session_id e =? id) (emargements db)), fk;
      try discriminate; injection H as <- _; reflexivity. }
  unfold has_session. rewrite E.
  destruct (existsb _ _) eqn:X; [|reflexivity].
  apply existsb_exists in X as (s & I & Q).
  apply filter_In in I as [_ N]. rewrite Q in N. discriminate.
Qed.

(** Deleting again what was deleted changes nothing and succeeds. *)
Lemma delete_session_twice fk db id db' h :
  delete_session fk db id = Ok (db', h) ->
  delete_session fk db' id = Ok (db', {| insertId := 0; affectedRows := 0 |}).
Proof.
  intros H. apply delete_session_missing.
  exact (deleted_session_is_missing _ _ _ _ _ H).
Qed.

(** C9.  DELETE /sessions/:id on an id no session has: the statement
    affects no row and leaves the store as it was, and the handler
    answers 200 with a body whose only field is [id]. *)
Theorem delete_missing_session_succeeds
    (X : platform) (db : database) (a : ambient) (req req1 : request) :
  has_session db (params_id req) = false ->
  delete_session (foreign_keys X) db (params_id req) =
    Ok (db, {| insertId := 0; affectedRows := 0 |})
  /\ deleteSession X db req =
       (db, {| status := 200; sent := Json [ ("id", Num 0) ] |})
  /\ (checkAuthForm X req = Ok req1 ->
      app X DELETE_sessions_id db a req =
        (db, Responded {| status := 200; sent := Json [ ("id", Num 0) ] |})).
Proof.
  intros H. split; [|split].
  - now apply delete_session_missing.
  - unfold deleteSession. now rewrite delete_session_missing.
  - intros A. unfold app, serve. cbn [chain run_chain run_middleware bind].
    rewrite A. cbn [bind handler]. unfold deleteSession.
    assert (P : params_id req1 = params_id req).
    { apply (run_middleware_keeps X auth_form req req1 A). }
    rewrite P, delete_session_missing by exact H. reflexivity.
Qed.

(** C1, what the code does.  PUT /sessions/:id on an id no session has,
    with the name of an existing user: the statement affects no row,
    and the handler answers 200 as if the session had been changed. *)
Theorem update_missing_session_reports_success
    (X : platform) (db : database) (a : ambient) (req req1 : request)
    (row0 : user) (rest : list user) :
  has_session db (params_id req) = false ->
  select_user_by_name db (field (body req) "newFormateurName") = row0 :: rest ->
  let answer :=
    {| status := 200;
       sent := Json [ ("id", Num 0);
                      ("new_title", Str (field (body req) "newTitle"));
                      ("new_date", Str (field (body req) "newDate_session"));
                      ("new_id_formateur", Num (user_id row0)) ] |} in
  updateSession X db req = (db, answer)
  /\ (run_chain X (chain PUT_sessions_id) req = Ok req1 ->
      app X PUT_sessions_id db a req = (db, Responded answer)).
Proof.
  intros H Q answer. subst answer.
  assert (G : forall r, body r = body req -> params_id r = params_id req ->
              updateSession X db r = updateSession X db req).
  { intros r B P. unfold updateSession. now rewrite B, P. }
  assert (U : updateSession X db req =
              (db, {| status := 200;
                      sent := Json [ ("id", Num 0);
                        ("new_title", Str (field (body req) "newTitle"));
                        ("new_date", Str (field (body req) "newDate_session"));
                        ("new_id_formateur", Num (user_id row0)) ] |})).
  { unfold updateSession. rewrite Q. cbn [catch].
    rewrite update_session_missing by exact H. reflexivity. }
  split; [exact U|].
  intros C. unfold app, serve. rewrite C. cbn [handler].
  destruct (run_chain_keeps _ _ _ _ C) as (B & P & _).
  rewrite (G req1 B P), U. reflexivity.
Qed.

(** C2, what the code does.  POST /sessions with an email no user has:
    [rows[0].id] throws inside the [try], and the handler answers 500
    with the message of the [TypeError]. *)
Theorem create_session_unknown_trainer_is_500
    (X : platform) (db : database) (a : ambient) (req req1 : request) :
  select_user_by_email db (field (body req) "email") = [] ->
  let answer :=
    {| status := 500;
       sent := JsonError
         (TypeError "Cannot read properties of undefined (reading 'id')") |} in
  createSession X db req = (db, answer)
  /\ (run_chain X (chain POST_sessions) req = Ok req1 ->
      app X POST_sessions db a req = (db, Responded answer)).
Proof.
  intros Q answer. subst answer.
  split.
  - unfold createSession. rewrite Q. reflexivity.
  - intros C. unfold app, serve. rewrite C. cbn [handler].
    destruct (run_chain_keeps _ _ _ _ C) as (B & _).
    unfold createSession. rewrite B, Q. reflexivity.
Qed.

(* ------------------------------------------------------------------ *)
(** ** Order of the role check and of the validation *)

Lemma role_check_first_elsewhere (r : route) :
  r <> POST_sessions -> role_check_first (chain r) = true.
Proof. destruct r; try reflexivity. intros N. now destruct N. Qed.

(** Where the role check is registered first, a request without a
    valid credential is refused before its body is looked at. *)
Lemma unauthenticated_before_validation X r db a req :
  r = PUT_sessions_id \/ r = POST_sessions_id_emargement ->
  (forall tok, authorization req = Some (Bearer tok) ->
               jwt_verify X tok (JWT_KEY X) = None) ->
  app X r db a req = (db, Refused Unauthenticated).
Proof.
  intros R N. unfold app, serve.
  assert (E : forall role, requireRole X role req = Err Unauthenticated).
  { intros role. unfold requireRole.
    destruct (authorization req) as [[?|t]|]; try reflexivity.
    now rewrite (N t eq_refl). }
  destruct R as [-> | ->]; cbn [chain run_chain run_middleware bind];
    unfold checkAuthForm, checkAuthEtud; rewrite E; reflexivity.
Qed.

(** C8, what the code does.  POST /sessions registers both a schema and
    a role check, the schema first: a body that fails the schema is
    answered with its field errors whatever the credential, also when
    there is none. *)
Theorem create_session_validates_before_auth
    (X : platform) (db : database) (a : ambient) (req : request) :
  issues X sessionsSchema (body req) <> [] ->
  guarded_and_validated POST_sessions = true
  /\ role_check_first (chain POST_sessions) = false
  /\ app X POST_sessions db a req =
       (db, Refused (ValidationError (issues X sessionsSchema (body req)))).
Proof.
  intros V. repeat split.
  unfold app, serve. cbn [chain run_chain run_middleware bind].
  unfold validateData.
  destruct (issues X sessionsSchema (body req)); [tauto|reflexivity].
Qed.

(* ------------------------------------------------------------------ *)
(** ** The properties at work in the classroom *)

Lemma update_missing_session_witness :
  has_session db0 7 = false
  /\ select_user_by_name db0 "Zoe" = [zoe]
  /\ app X0 PUT_sessions_id db0 noon put_missing =
       (db0, Responded
          {| status := 200;
             sent := Json [ ("id", Num 0); ("new_title", Str "Rocq");
                            ("new_date", Str "2025-01-15");
                            ("new_id_formateur", Num 3) ] |}).
Proof.
  split; [reflexivity|]. split; [reflexivity|].
  eapply (proj2 (update_missing_session_reports_success
                   X0 db0 noon put_missing _ zoe [] eq_refl eq_refl)).
  reflexivity.
Defined.

Lemma create_session_unknown_trainer_witness :
  select_user_by_email db0 "ghost@x.com" = []
  /\ app X0 POST_sessions db0 noon post_ghost =
       (db0, Responded
          {| status := 500;
             sent := JsonError
               (TypeError "Cannot read properties of undefined (reading 'id')") |}).
Proof.
  split; [reflexivity|].
  eapply (proj2 (create_session_unknown_trainer_is_500
                   X0 db0 noon post_ghost _ eq_refl)).
  reflexivity.
Defined.

Lemma create_session_validates_before_auth_witness :
  authorization (anonymous 0 []) = None
  /\ issues X0 sessionsSchema (body (anonymous 0 [])) <> []
  /\ app X0 POST_sessions db0 noon (anonymous 0 []) =
       (db0, Refused (ValidationError ["email"; "title"; "date_session"])).
Proof.
  split; [reflexivity|].
  assert (N : issues X0 sessionsSchema (body (anonymous 0 [])) <> [])
    by (vm_compute; discriminate).
  split; [exact N|].
  exact (proj2 (proj2 (create_session_validates_before_auth
                         X0 db0 noon (anonymous 0 []) N))).
Defined.

Lemma delete_missing_session_witness :
  has_session db0 7 = false
  /\ app X0 DELETE_sessions_id db0 noon delete_missing =
       (db0, Responded {| status := 200; sent := Json [ ("id", Num 0) ] |}).
Proof.
  split; [reflexivity|].
  eapply (proj2 (proj2 (delete_missing_session_succeeds
                          X0 db0 noon delete_missing _ eq_refl))).
  reflexivity.
Defined.

Lemma login_failures_witness :
  app X0 POST_auth_login db0 noon
      (anonymous 0 [ ("email", Str "nobody@x.com"); ("password", Str "secret1") ]) =
    (db0, Responded {| status := 401; sent := Text "User not found" |})
  /\ app X0 POST_auth_login db0 noon
        (anonymous 0 [ ("email", Str "a@x.com"); ("password", Str "secret2") ]) =
      (db0, Responded {| status := 401; sent := Text "Unauthorized" |}).
Proof.
  split.
  - apply (proj1 (login_failures_are_401 X0 db0 noon
             (anonymous 0 [ ("email", Str "nobody@x.com");
                            ("password", Str "secret1") ])));
      reflexivity.
  - eapply (proj1 (proj2 (login_failures_are_401 X0 db0 noon
              (anonymous 0 [ ("email", Str "a@x.com");
                             ("password", Str "secret2") ]))));
      reflexivity.
Defined.

Lemma signup_then_login_witness :
  app X0 POST_auth_signup db0 noon eve_signup =
    (with_eve, Responded
       {| status := 200;
          sent := Json [ ("id", Num 4); ("name", Str "Eve");
                         ("email", Str "e@x.com"); ("role", Str "etudiant") ] |})
  /\ exists tok,
       app X0 POST_auth_login (fst (run X0 with_eve meanwhile)) noon eve_login =
         (fst (run X0 with_eve meanwhile),
          Responded {| status := 200; sent := JsonToken tok |})
       /\ tk_payload tok = {| p_id := 4; p_role := "etudiant" |}.
Proof.
  split; [reflexivity|].
  destruct (signup_then_login X0 db0 with_eve noon noon eve_signup eve_login
              _ meanwhile eq_refl eq_refl eq_refl eq_refl)
    as (tok & id & name & email & role & L & _ & P & _ & R).
  exists tok. split; [exact L|].
  rewrite P. cbn in R. injection R as <- _ _ <-. reflexivity.
Defined.

Lemma create_then_get_round_trip_witness :
  well_formed db0 = true
  /\ app X0 GET_sessions_id (fst (app X0 POST_sessions db0 noon post_rocq)) noon
        (anonymous 2 []) =
      (fst (app X0 POST_sessions db0 noon post_rocq),
       Responded
         {| status := 200;
            sent := JsonRows [ [ ("id", Num 2); ("title", Str "Rocq");
                                 ("date", Str "2025-01-15");
                                 ("formateur_id", Num 3) ] ] |}).
Proof.
  split; [reflexivity|].
  destruct (create_then_get_round_trip X0 db0 _ noon post_rocq _
              eq_refl eq_refl eq_refl)
    as [(id & title & date & f & _ & _ & R & G) _].
  cbn in R. injection R as <- <- <- <-.
  apply G. reflexivity.
Defined.

Lemma attendance_twice_witness :
  app X0 POST_sessions_id_emargement db0 noon mark_bob_as_ana =
    (marked_once, Responded
       {| status := 200;
          sent := Json [ ("id", Num 1); ("id_session", Num 1);
                         ("id_etudiant", Num 2); ("status", Str "1") ] |})
  /\ exists db2 id2,
       app X0 POST_sessions_id_emargement marked_once noon mark_bob_as_ana =
         (db2, Responded
            {| status := 200;
               sent := Json [ ("id", Num id2); ("id_session", Num 1);
                              ("id_etudiant", Num 2); ("status", Str "1") ] |})
       /\ id2 <> 1
       /\ List.length (attendance_of db2 1 2) = 2%nat.
Proof.
  split; [reflexivity|].
  destruct (attendance_twice_duplicates X0 db0 marked_once noon noon
              mark_bob_as_ana _ eq_refl eq_refl)
    as (db2 & id1 & id2 & e & R & A & N & _ & T).
  cbn zeta in R, A, N, T. injection R as <- <-.
  exists db2, id2. split; [exact A|]. split; [congruence|].
  change (params_id mark_bob_as_ana) with 1 in T.
  rewrite T. reflexivity.
Defined.

Lemma attendance_is_for_the_email_given_witness :
  app X0 POST_sessions_id_emargement db0 noon mark_bob_as_ana =
    (marked_once, Responded
       {| status := 200;
          sent := Json [ ("id", Num 1); ("id_session", Num 1);
                         ("id_etudiant", Num 2); ("status", Str "1") ] |})
  /\ exists id,
       emargements marked_once =
         [ {| emargement_id := id; emargement_session_id := 1;
              emargement_etudiant_id := user_id bob; emargement_status := "1" |} ].
Proof.
  split; [reflexivity|].
  destruct (attendance_is_for_the_email_given X0 db0 marked_once noon
              mark_bob_as_ana _ eq_refl eq_refl)
    as (row0 & rest & id & tok & caller & Q & _ & E & _).
  exists id. rewrite E.
  change (select_user_by_email db0 (field (body mark_bob_as_ana) "email"))
    with [bob] in Q.
  injection Q as <- _. reflexivity.
Defined.

(** C4, as stated, fails: Ana, authenticated with her own token
    (id 1), marks Bob (id 2) present; the request succeeds and the new
    record carries Bob's id. *)
Lemma attendance_for_another_trainee :
  ~ (forall (X : platform) (db db1 : database) (a : ambient) (req : request)
            (res : response) (tok : token) (caller : payload) (e : emargement),
        app X POST_sessions_id_emargement db a req = (db1, Responded res) ->
        status res = 200 ->
        authorization req = Some (Bearer tok) ->
        jwt_verify X tok (JWT_KEY X) = Some caller ->
        In e (emargements db1) ->
        ~ In e (emargements db) ->
        emargement_etudiant_id e = p_id caller).
Proof.
  intros claim.
  specialize (claim X0 db0 marked_once noon mark_bob_as_ana _ _
                {| p_id := 1; p_role := "etudiant" |}
                {| emargement_id := 1; emargement_session_id := 1;
                   emargement_etudiant_id := 2; emargement_status := "1" |}
                eq_refl eq_refl eq_refl eq_refl).
  assert (2 = 1) as E.
  { apply claim.
    - left. reflexivity.
    - intros []. }
  discriminate E.
Qed.

(* ------------------------------------------------------------------ *)
(** ** Checks of the model against the sources *)

Example parse_date_examples :
  parse_date "2024-12-09" = Some (mkDate 2024 12 9)
  /\ parse_date "2024-02-29" = Some (mkDate 2024 2 29)
  /\ parse_date "2023-02-29" = None
  /\ parse_date "2024-1-5" = None
  /\ render_date (mkDate 2024 12 9) = "2024-12-09".
Proof. repeat split; reflexivity. Qed.

Example civil_days_examples :
  days_from_civil (mkDate 2024 12 9) = 20066
  /\ civil_from_days 20066 = mkDate 2024 12 9
  /\ civil_from_days 0 = mkDate 1970 1 1
  /\ civil_from_days (-1) = mkDate 1969 12 31.
Proof. repeat split; reflexivity. Qed.

(** The comment of the GET handlers: without [dateStrings] the date of
    2024-12-09 would arrive as the [Date] 2024-12-08T23:00:00.000Z. *)
Example date_without_dateStrings :
  date_column {| timezone := 60; dateStrings := false |} (mkDate 2024 12 9)
    = DateObj 1733698800000
  /\ toISOString 1733698800000 = "2024-12-08T23:00:00.000Z"
  /\ format_value (DateObj 1733698800000) = Str "2024-12-08"
  /\ date_column connectDb (mkDate 2024 12 9) = Str "2024-12-09".
Proof. repeat split; reflexivity. Qed.

(** The two examples of section 8 of the specification. *)
Example signup_example :
  snd (app X0 POST_auth_signup empty_database noon
         (anonymous 0 (signup_body "Ana" "a@x.com" "secret1" "etudiant"))) =
    Responded {| status := 200;
                 sent := Json [ ("id", Num 1); ("name", Str "Ana");
                                ("email", Str "a@x.com");
                                ("role", Str "etudiant") ] |}.
Proof. reflexivity. Qed.

Example emargement_example :
  snd (app X0 POST_sessions_id_emargement db0 noon
         (as_user X0 1 "etudiant" 1 [ ("email", Str "a@x.com") ])) =
    Responded {| status := 200;
                 sent := Json [ ("id", Num 1); ("id_session", Num 1);
                                ("id_etudiant", Num 1); ("status", Str "1") ] |}.
Proof. reflexivity. Qed.

(** A token of the other role is refused as forbidden, ahead of the
    body, where the role check comes first. *)
Example wrong_role_is_forbidden :
  snd (app X0 PUT_sessions_id db0 noon (as_user X0 1 "etudiant" 1 [])) =
    Refused Forbidden
  /\ snd (app X0 POST_sessions_id_emargement db0 noon
            (as_user X0 3 "formateur" 1 [])) = Refused Forbidden
  /\ snd (app X0 PUT_sessions_id db0 noon (anonymous 1 [])) =
       Refused Unauthenticated.
Proof. repeat split; reflexivity. Qed.

(** The roster of session 1 after Bob was marked twice names him twice. *)
Example roster_after_two_marks :
  snd (app X0 GET_sessions_id_emargement
         (fst (app X0 POST_sessions_id_emargement marked_once noon mark_bob_as_ana))
         noon (as_user X0 3 "formateur" 1 [])) =
    Responded {| status := 200;
                 sent := JsonRows [ [ ("name", Str "Bob") ];
                                    [ ("name", Str "Bob") ] ] |}.
Proof. reflexivity. Qed.

(* ================================================================== *)
(** * Further properties of the handlers *)

(** ** Requests that pass the middlewares *)

(** A handler reads the body and the id of the path, nothing else of
    the request. *)
Lemma handler_reads X c r db a req req' :
  body req' = body req -> params_id req' = params_id req ->
  handler X c r db a req' = handler X c r db a req.
Proof.
  intros B P. destruct r; cbn [handler];
    unfold signup, login, createSession, getSession, updateSession,
           deleteSession, recordAttendance, listAttendance;
    rewrite ?B, ?P; reflexivity.
Qed.

Lemma app_passed X r db a req req1 :
  run_chain X (chain r) req = Ok req1 ->
  app X r db a req =
    (fst (handler X connectDb r db a req),
     Responded (snd (handler X connectDb r db a req))).
Proof.
  intros C. unfold app, serve. rewrite C.
  destruct (run_chain_keeps _ _ _ _ C) as (B & P & _).
  rewrite (handler_reads X connectDb r db a req req1 B P).
  destruct (handler _ _ _ _ _ _). reflexivity.
Qed.

Lemma app_refused X r db a req e :
  run_chain X (chain r) req = Err e ->
  app X r db a req = (db, Refused e).
Proof. intros C. unfold app, serve. now rewrite C. Qed.

Lemma run_chain_auth X r req req1 :
  run_chain X (chain r) req = Ok req1 ->
  (In auth_form (chain r) -> exists q, checkAuthForm X req = Ok q)
  /\ (In auth_etud (chain r) -> exists q, checkAuthEtud X req = Ok q).
Proof.
  intros C. destruct r; cbn [chain] in *; split; intros I;
    repeat (destruct I as [I|I]; try discriminate I);
    try (destruct I);
    cbn [run_chain run_middleware bind] in C; unfold validateData in C;
    repeat match type of C with
           | context [issues X ?s (body req)] =>
               destruct (issues X s (body req)); cbn [bind] in C;
               try discriminate C
           | context [checkAuthForm X req] =>
               destruct (checkAuthForm X req) eqn:A; cbn [bind] in C;
               try discriminate C
           | context [checkAuthEtud X req] =>
               destruct (checkAuthEtud X req) eqn:A; cbn [bind] in C;
               try discriminate C
           end; eauto.
Qed.

(* ------------------------------------------------------------------ *)
(** ** What every route does and never does *)

Lemma handler_writes_on_200 X c r db a req :
  fst (handler X c r db a req) = db
  \/ (writes r = true /\ status (snd (handler X c r db a req)) = 200).
Proof.
  destruct r; cbn [handler writes].
  - unfold signup. destruct (insert_user _ _ _ _ _) as [[d h]|e]; cbn; auto.
  - unfold login.
    destruct (select_user_by_email _ _); cbn; auto.
    destruct (negb _); cbn; auto.
  - unfold createSession.
    destruct (select_user_by_email _ _); cbn; auto.
    destruct (insert_session _ _ _ _ _) as [[d h]|e]; cbn; auto.
  - left. reflexivity.
  - left. unfold getSession. destruct (map _ _); reflexivity.
  - unfold updateSession.
    destruct (select_user_by_name _ _); cbn; auto.
    destruct (update_session _ _ _ _ _ _) as [[d h]|e]; cbn; auto.
  - unfold deleteSession.
    destruct (delete_session _ _ _) as [[d h]|e]; cbn; auto.
  - unfold recordAttendance.
    destruct (select_user_by_email _ _); cbn; auto.
    destruct (insert_emargement _ _ _ _) as [[d h]|e]; cbn; auto.
  - left. reflexivity.
Qed.

(** X1.  The store changes only when a writing route answers 200: a
    request that a middleware refuses, a request to login or to a GET
    route, and every request answered 401, 404 or 500 leave the store
    exactly as it was. *)
Theorem store_changes_only_on_200
    (X : platform) (r : route) (db : database) (a : ambient) (req : request) :
  fst (app X r db a req) = db
  \/ (writes r = true
      /\ exists res, snd (app X r db a req) = Responded res /\ status res = 200).
Proof.
  unfold app, serve.
  destruct (run_chain X (chain r) req) as [req1|e]; [|left; reflexivity].
  destruct (handler_writes_on_200 X connectDb r db a req1) as [E | [W S]].
  - left. destruct (handler _ _ _ _ _ _). exact E.
  - right. split; [exact W|].
    destruct (handler _ _ _ _ _ _) as [db1 res]. cbn in *. eauto.
Qed.

Lemma handler_statuses X c r db a req :
  In (status (snd (handler X c r db a req))) (statuses r).
Proof.
  destruct r; cbn [handler statuses].
  - unfold signup. destruct (insert_user _ _ _ _ _) as [[d h]|e]; cbn; auto.
  - unfold login.
    destruct (select_user_by_email _ _); cbn; auto.
    destruct (negb _); cbn; auto.
  - unfold createSession.
    destruct (select_user_by_email _ _); cbn; auto.
    destruct (insert_session _ _ _ _ _) as [[d h]|e]; cbn; auto.
  - cbn. auto.
  - unfold getSession. destruct (map _ _); cbn; auto.
  - unfold updateSession.
    destruct (select_user_by_name _ _); cbn; auto.
    destruct (update_session _ _ _ _ _ _) as [[d h]|e]; cbn; auto.
  - unfold deleteSession.
    destruct (delete_session _ _ _) as [[d h]|e]; cbn; auto.
  - unfold recordAttendance.
    destruct (select_user_by_email _ _); cbn; auto.
    destruct (insert_emargement _ _ _ _) as [[d h]|e]; cbn; auto.
  - cbn. auto.
Qed.

(** X2.  Whatever the request, when the handler of a route answers, it
    is with one of the statuses its source sets: 200 or 500 for signup,
    POST /sessions and DELETE; 200 or 401 for login; 200 or 404 for
    GET /sessions/:id; 200, 404 or 500 for PUT and for POST emargement;
    always 200 for the two lists. *)
Theorem route_statuses
    (X : platform) (r : route) (db : database) (a : ambient) (req : request) :
  match snd (app X r db a req) with
  | Responded res => In (status res) (statuses r)
  | Refused _ => True
  end.
Proof.
  unfold app, serve.
  destruct (run_chain X (chain r) req) as [req1|e]; [|exact I].
  pose proof (handler_statuses X connectDb r db a req1) as H.
  destruct (handler _ _ _ _ _ _). exact H.
Qed.

(* ------------------------------------------------------------------ *)
(** ** Accounts *)

Lemma validated_by X r req req1 s :
  run_chain X (chain r) req = Ok req1 ->
  In (validate s) (chain r) ->
  forall k c, In (k, c) s ->
    prop (body req) k = Some (Str (field (body req) k))
    /\ passes X c (Some (Str (field (body req) k))) = true.
Proof.
  intros C I k c K.
  apply (validated_field X s); [|exact K].
  exact (run_chain_validated X _ _ _ _ C I).
Qed.

(** X3.  POST /auth/signup with a body that passes [userSchema]: when
    no user has the email, it answers 200 with the id the store
    assigned and the name, email and role of the body (never the
    password), and the store gains one user whose password column
    holds the bcrypt hash of cost 10; when a user has the email, the
    INSERT fails, the answer is 500 and no user is added. *)
Theorem signup_outcome
    (X : platform) (db : database) (a : ambient) (req req1 : request) :
  run_chain X (chain POST_auth_signup) req = Ok req1 ->
  let data := body req in
  (select_user_by_email db (field data "email") = [] ->
   exists db1,
     app X POST_auth_signup db a req =
       (db1, Responded
          {| status := 200;
             sent := Json [ ("id", Num (user_auto db));
                            ("name", Str (field data "name"));
                            ("email", Str (field data "email"));
                            ("role", Str (field data "role")) ] |})
     /\ users db1 =
          (users db ++
           [ {| user_id := user_auto db;
                user_name := field data "name";
                user_email := field data "email";
                user_password := bcrypt_hash X (field data "password") 10 (salt a);
                user_role := field data "role" |} ])%list
     /\ sessions db1 = sessions db
     /\ emargements db1 = emargements db)
  /\ (select_user_by_email db (field data "email") <> [] ->
      app X POST_auth_signup db a req =
        (db, Responded {| status := 500; sent := JsonError (SqlError ER_DUP_ENTRY) |})).
Proof.
  intros C data. rewrite (app_passed X _ db a req req1 C).
  cbn [handler]. unfold signup, insert_user. fold data.
  split.
  - intros ->. cbn. eexists. split; [reflexivity|]. cbn. auto.
  - intros N. destruct (select_user_by_email db (field data "email")); [tauto|].
    reflexivity.
Qed.

(** X4.  POST /auth/login puts a token in its answer only when the
    email of the body selects a user and the password of the body
    verifies against the hash of the first such user; the token then
    carries the id and the role of that user and the time of issue,
    verifies under the key of the process, the status is 200 and the
    store is unchanged. *)
Theorem login_token_sound
    (X : platform) (db db1 : database) (a : ambient) (req : request)
    (res : response) (tok : token) :
  app X POST_auth_login db a req = (db1, Responded res) ->
  sent res = JsonToken tok ->
  exists row0 rest,
    select_user_by_email db (field (body req) "email") = row0 :: rest
    /\ bcrypt_compare X (field (body req) "password") (user_password row0) = true
    /\ tk_payload tok = {| p_id := user_id row0; p_role := user_role row0 |}
    /\ tk_iat tok = now a
    /\ jwt_verify X tok (JWT_KEY X) = Some (tk_payload tok)
    /\ status res = 200
    /\ db1 = db.
Proof.
  intros H T. unfold app, serve in H.
  destruct (run_chain X (chain POST_auth_login) req) as [req1|e] eqn:C;
    [|discriminate].
  destruct (run_chain_keeps _ _ _ _ C) as (B & _).
  cbn [handler] in H. unfold login in H. rewrite B in H.
  destruct (select_user_by_email db _) as [|row0 rest]; cbn in H.
  { injection H as <- <-. discriminate T. }
  destruct (bcrypt_compare _ _ _) eqn:P; cbn in H.
  2:{ injection H as <- <-. discriminate T. }
  injection H as <- <-. cbn in T. injection T as <-.
  exists row0, rest. repeat split; try exact P. apply jwt_verify_sign.
Qed.

(* ------------------------------------------------------------------ *)
(** ** Sessions *)

Lemma selected_by_email_exists db email row0 rest :
  select_user_by_email db email = row0 :: rest ->
  has_user db (user_id row0) = true.
Proof.
  intros Q. unfold has_user. apply existsb_exists. exists row0.
  split; [|apply Z.eqb_refl].
  assert (I : In row0 (select_user_by_email db email)) by (rewrite Q; now left).
  apply filter_In in I. tauto.
Qed.

Lemma selected_by_name_exists db name row0 rest :
  select_user_by_name db name = row0 :: rest ->
  has_user db (user_id row0) = true.
Proof.
  intros Q. unfold has_user. apply existsb_exists. exists row0.
  split; [|apply Z.eqb_refl].
  assert (I : In row0 (select_user_by_name db name)) by (rewrite Q; now left).
  apply filter_In in I. tauto.
Qed.

(** Through the connection of [connectDb] the rows of the two GET
    handlers are the sessions with their dates as text. *)
Lemma formatted_rows (l : list session) :
  map format_row (map (session_row connectDb) l) = map shown l.
Proof.
  induction l as [|s l IH]; cbn [map]; [reflexivity|].
  rewrite IH. reflexivity.
Qed.

Lemma has_session_selected db id :
  has_session db id = true -> select_session_by_id db id <> [].
Proof.
  intros H E. apply existsb_exists in H as (s & I & Q).
  assert (J : In s (select_session_by_id db id)) by (apply filter_In; auto).
  rewrite E in J. destruct J.
Qed.

(** X5.  POST /sessions, for a request that passes the schema and the
    role check, with the email of an existing user: it answers 200,
    the id is the one the store assigned, the trainer is the first
    user with that email, one session is appended and nothing else
    changes, and GET /sessions then lists the former rows followed by
    the new one. *)
Theorem create_session_succeeds
    (X : platform) (db : database) (a : ambient) (req req1 : request)
    (row0 : user) (rest : list user) :
  run_chain X (chain POST_sessions) req = Ok req1 ->
  select_user_by_email db (field (body req) "email") = row0 :: rest ->
  let data := body req in
  exists d db1,
    parse_date (field data "date_session") = Some d
    /\ app X POST_sessions db a req =
         (db1, Responded
            {| status := 200;
               sent := Json [ ("id", Num (session_auto db));
                              ("title", Str (field data "title"));
                              ("date", Str (field data "date_session"));
                              ("id_formateur", Num (user_id row0)) ] |})
    /\ sessions db1 =
         (sessions db ++
          [ {| session_id := session_auto db;
               session_title := field data "title";
               session_date := d;
               session_formateur_id := user_id row0 |} ])%list
    /\ users db1 = users db
    /\ emargements db1 = emargements db
    /\ forall a' req',
         app X GET_sessions db1 a' req' =
           (db1, Responded
              {| status := 200;
                 sent := JsonRows
                   (map shown (sessions db) ++
                    [ [ ("id", Num (session_auto db));
                        ("title", Str (field data "title"));
                        ("date", Str (field data "date_session"));
                        ("formateur_id", Num (user_id row0)) ] ])%list |}).
Proof.
  intros C Q data. subst data.
  destruct (validated_by X _ _ _ sessionsSchema C) with
    (k := "date_session") (c := DateString) as [_ P]; [cbn; auto|cbn; auto|].
  cbn [passes] in P.
  destruct (parse_date (field (body req) "date_session")) as [d|] eqn:D;
    [|discriminate].
  rewrite (app_passed X _ db a req req1 C).
  cbn [handler]. unfold createSession, insert_session.
  rewrite Q. cbn [first_id bind]. rewrite D.
  rewrite (selected_by_email_exists _ _ _ _ Q), andb_false_r.
  cbn [sql bind catch fst snd insertId].
  exists d. eexists. split; [reflexivity|]. split; [reflexivity|].
  cbn [sessions users emargements]. repeat split.
  intros a' req'. unfold app, serve. cbn [chain run_chain handler].
  unfold listSessions, select_sessions. cbn [sessions].
  rewrite formatted_rows, map_app.
  rewrite <- (render_parse_date _ _ D). reflexivity.
Qed.

(** X6.  GET /sessions/:id answers 404 "Session not found" exactly when
    no session has the id; otherwise it answers 200 with at least one
    row, and every row is a session of the store with the requested
    id, its date as text.  The store is not touched either way. *)
Theorem get_session_outcome
    (X : platform) (db : database) (a : ambient) (req : request) :
  (has_session db (params_id req) = false ->
   app X GET_sessions_id db a req =
     (db, Responded {| status := 404; sent := Text "Session not found" |}))
  /\ (has_session db (params_id req) = true ->
      exists rows,
        rows <> []
        /\ app X GET_sessions_id db a req =
             (db, Responded {| status := 200; sent := JsonRows rows |})
        /\ forall row, In row rows ->
             exists s, In s (sessions db)
                       /\ session_id s = params_id req /\ row = shown s).
Proof.
  unfold app, serve. cbn [chain run_chain handler]. unfold getSession.
  split; intros H.
  - rewrite (select_missing_session _ _ H). reflexivity.
  - pose proof (has_session_selected _ _ H) as N.
    exists (map shown (select_session_by_id db (params_id req))).
    split; [|split].
    + destruct (select_session_by_id db (params_id req)); [tauto|discriminate].
    + rewrite formatted_rows.
      destruct (select_session_by_id db (params_id req)); [tauto|reflexivity].
    + intros row I. apply in_map_iff in I as (s & <- & J).
      apply filter_In in J as [J E]. apply Z.eqb_eq in E. eauto.
Qed.

(** X7.  PUT /sessions/:id, for a request that passes the role check
    and the schema: it answers 404 "User not found" and changes
    nothing when no user has the name of the body, and otherwise it
    answers 200 with the id of the first user of that name; it never
    answers 500. *)
Theorem update_session_outcome
    (X : platform) (db : database) (a : ambient) (req req1 : request) :
  run_chain X (chain PUT_sessions_id) req = Ok req1 ->
  (select_user_by_name db (field (body req) "newFormateurName") = [] ->
   app X PUT_sessions_id db a req =
     (db, Responded {| status := 404; sent := Text "User not found" |}))
  /\ (forall row0 rest,
        select_user_by_name db (field (body req) "newFormateurName") = row0 :: rest ->
        exists db1,
          app X PUT_sessions_id db a req =
            (db1, Responded
               {| status := 200;
                  sent := Json [ ("id", Num 0);
                                 ("new_title", Str (field (body req) "newTitle"));
                                 ("new_date", Str (field (body req) "newDate_session"));
                                 ("new_id_formateur", Num (user_id row0)) ] |})
          /\ users db1 = users db
          /\ emargements db1 = emargements db
          /\ map session_id (sessions db1) = map session_id (sessions db)).
Proof.
  intros C.
  destruct (validated_by X _ _ _ modifSessionsSchema C) with
    (k := "newDate_session") (c := DateString) as [_ P]; [cbn; auto|cbn; auto|].
  cbn [passes] in P.
  destruct (parse_date (field (body req) "newDate_session")) as [d|] eqn:D;
    [|discriminate].
  rewrite (app_passed X _ db a req req1 C).
  cbn [handler]. unfold updateSession.
  split.
  - intros ->. reflexivity.
  - intros row0 rest Q. rewrite Q. cbn [catch]. unfold update_session.
    rewrite D, (selected_by_name_exists _ _ _ _ Q), andb_false_r.
    destruct (select_session_by_id db (params_id req)) as [|s l];
      cbn [sql bind catch fst snd insertId];
      eexists; (split; [reflexivity|]); cbn [users emargements sessions];
      repeat split.
    rewrite map_map. apply map_ext_in. intros s0 _.
    destruct (session_id s0 =? params_id req) eqn:E; [|reflexivity].
    apply Z.eqb_eq in E. cbn. congruence.
Qed.

Lemma select_updated (id : Z) (new : session) (l : list session) :
  session_id new = id ->
  filter (fun s => session_id s =? id)
         (map (fun s => if session_id s =? id then new else s) l) =
  map (fun _ => new) (filter (fun s => session_id s =? id) l).
Proof.
  intros N. induction l as [|s l IH]; cbn; [reflexivity|].
  destruct (session_id s =? id) eqn:E; cbn.
  - rewrite N, Z.eqb_refl, IH. reflexivity.
  - rewrite E, IH. reflexivity.
Qed.

Lemma select_not_updated (id id' : Z) (new : session) (l : list session) :
  session_id new = id -> id' <> id ->
  filter (fun s => session_id s =? id')
         (map (fun s => if session_id s =? id then new else s) l) =
  filter (fun s => session_id s =? id') l.
Proof.
  intros N D. induction l as [|s l IH]; cbn; [reflexivity|].
  destruct (session_id s =? id) eqn:E; cbn.
  - apply Z.eqb_eq in E.
    assert (F1 : (session_id new =? id') = false) by (apply Z.eqb_neq; lia).
    assert (F2 : (session_id s =? id') = false) by (apply Z.eqb_neq; lia).
    rewrite F1, F2. exact IH.
  - rewrite IH. reflexivity.
Qed.

(** X8.  When PUT /sessions/:id answers 200 for the id of an existing
    session, GET /sessions/:id on that id answers 200 with rows that
    all hold the new title, the new date as it was written in the
    body, and the id of the new trainer; what GET answers for any other
    id is what it answered before. *)
Theorem update_then_get
    (X : platform) (db db1 : database) (a a' : ambient) (req req' : request)
    (res : response) :
  app X PUT_sessions_id db a req = (db1, Responded res) ->
  status res = 200 ->
  has_session db (params_id req) = true ->
  exists f rows,
    sent res = Json [ ("id", Num 0);
                      ("new_title", Str (field (body req) "newTitle"));
                      ("new_date", Str (field (body req) "newDate_session"));
                      ("new_id_formateur", Num f) ]
    /\ (params_id req' = params_id req ->
        rows <> []
        /\ app X GET_sessions_id db1 a' req' =
             (db1, Responded {| status := 200; sent := JsonRows rows |})
        /\ forall row, In row rows ->
             row = [ ("id", Num (params_id req));
                     ("title", Str (field (body req) "newTitle"));
                     ("date", Str (field (body req) "newDate_session"));
                     ("formateur_id", Num f) ])
    /\ (params_id req' <> params_id req ->
        snd (app X GET_sessions_id db1 a' req') =
        snd (app X GET_sessions_id db a' req')).
Proof.
  intros H S E.
  pose proof (has_session_selected _ _ E) as N.
  unfold app, serve in H.
  destruct (run_chain X (chain PUT_sessions_id) req) as [req1|e] eqn:C;
    [|discriminate].
  destruct (run_chain_keeps _ _ _ _ C) as (B & P & _).
  cbn [handler] in H. unfold updateSession in H. rewrite B, P in H.
  destruct (select_user_by_name db _) as [|row0 rest]; cbn [catch] in H.
  { injection H as <- <-. discriminate S. }
  unfold update_session in H.
  destruct (select_session_by_id db (params_id req)) as [|s0 l] eqn:M;
    [tauto|].
  destruct (parse_date (field (body req) "newDate_session")) as [d|] eqn:D;
    cbn in H.
  2:{ injection H as <- <-. discriminate S. }
  destruct (_ && _); cbn in H.
  { injection H as <- <-. discriminate S. }
  injection H as <- <-.
  set (new := {| session_id := params_id req;
                 session_title := field (body req) "newTitle";
                 session_date := d;
                 session_formateur_id := user_id row0 |}).
  exists (user_id row0), (map shown (map (fun _ => new) (s0 :: l))).
  split; [reflexivity|]. split.
  - intros Q. split; [discriminate|]. split.
    + unfold app, serve. cbn [chain run_chain handler]. unfold getSession.
      unfold select_session_by_id in *. cbn [sessions]. rewrite Q.
      rewrite (select_updated (params_id req) new (sessions db) eq_refl), M.
      rewrite formatted_rows. reflexivity.
    + intros row I. apply in_map_iff in I as (s & <- & I).
      apply in_map_iff in I as (s' & <- & _).
      unfold shown, new. cbn [session_id session_title session_date
        session_formateur_id].
      rewrite (render_parse_date _ _ D). reflexivity.
  - intros Q. unfold app, serve. cbn [chain run_chain handler].
    unfold getSession, select_session_by_id. cbn [sessions].
    rewrite (select_not_updated (params_id req) (params_id req') new
               (sessions db) eq_refl Q).
    destruct (map (session_row connectDb) _); reflexivity.
Qed.

Lemma select_not_deleted (id id' : Z) (l : list session) :
  id' <> id ->
  filter (fun s => session_id s =? id')
         (filter (fun s => negb (session_id s =? id)) l) =
  filter (fun s => session_id s =? id') l.
Proof.
  intros D. induction l as [|s l IH]; cbn; [reflexivity|].
  destruct (session_id s =? id) eqn:E; cbn.
  - apply Z.eqb_eq in E.
    assert (F : (session_id s =? id') = false) by (apply Z.eqb_neq; lia).
    rewrite F. exact IH.
  - rewrite IH. reflexivity.
Qed.

(** X9.  When DELETE /sessions/:id answers 200, GET /sessions/:id on
    that id answers 404, a second DELETE of the id answers 200 again
    and changes nothing, what GET answers for any other id is what it
    answered before, and no user is touched. *)
Theorem delete_then_get
    (X : platform) (db db1 : database) (a a' : ambient) (req req' : request)
    (res : response) :
  app X DELETE_sessions_id db a req = (db1, Responded res) ->
  status res = 200 ->
  (params_id req' = params_id req ->
   app X GET_sessions_id db1 a' req' =
     (db1, Responded {| status := 404; sent := Text "Session not found" |}))
  /\ (params_id req' <> params_id req ->
      snd (app X GET_sessions_id db1 a' req') =
      snd (app X GET_sessions_id db a' req'))
  /\ app X DELETE_sessions_id db1 a' req =
       (db1, Responded {| status := 200; sent := Json [ ("id", Num 0) ] |})
  /\ users db1 = users db.
Proof.
  intros H S. unfold app, serve in *.
  destruct (run_chain X (chain DELETE_sessions_id) req) as [req1|e] eqn:C;
    [|discriminate].
  destruct (run_chain_keeps _ _ _ _ C) as (B & P & _).
  cbn [handler] in *. unfold deleteSession in *. rewrite P in *.
  destruct (delete_session (foreign_keys X) db (params_id req))
    as [[d h]|e] eqn:D; cbn in H.
  2:{ injection H as <- <-. discriminate S. }
  injection H as <- <-.
  pose proof (deleted_session_is_missing _ _ _ _ _ D) as M.
  assert (K : sessions d = filter (fun s => negb (session_id s =? params_id req))
                                  (sessions db) /\ users d = users db).
  { unfold delete_session in D.
    destruct (select_session_by_id db (params_id req)),
      (filter (fun e => emargement_session_id e =? params_id req) (emargements db)),
      (foreign_keys X); try discriminate; injection D as <- _; auto. }
  destruct K as [K U].
  split; [|split; [|split]].
  - intros Q. cbn [chain run_chain]. unfold getSession. rewrite Q.
    rewrite (select_missing_session _ _ M). reflexivity.
  - intros Q. cbn [chain run_chain]. unfold getSession, select_session_by_id.
    rewrite K, (select_not_deleted _ _ _ Q). destruct (map (session_row connectDb) _); reflexivity.
  - rewrite (delete_session_missing _ _ _ M). reflexivity.
  - exact U.
Qed.

(* ------------------------------------------------------------------ *)
(** ** Attendance and rosters *)

(** X10.  POST /sessions/:id/emargement, for a request that passes the
    role check and the schema: it answers 404 "User not found" and
    changes nothing when no user has the email; the handler itself
    never looks for the session, so with the email of a user it
    appends a record and answers 200 whenever the store accepts the
    reference (the session exists, or references are not checked), and
    answers 500 when the store refuses it. *)
Theorem record_attendance_outcome
    (X : platform) (db : database) (a : ambient) (req req1 : request) :
  run_chain X (chain POST_sessions_id_emargement) req = Ok req1 ->
  let rows := select_user_by_email db (field (body req) "email") in
  (rows = [] ->
   app X POST_sessions_id_emargement db a req =
     (db, Responded {| status := 404; sent := Text "User not found" |}))
  /\ (forall row0 rest,
        rows = row0 :: rest ->
        checks (foreign_keys X) = false \/ has_session db (params_id req) = true ->
        exists db1,
          app X POST_sessions_id_emargement db a req =
            (db1, Responded
               {| status := 200;
                  sent := Json [ ("id", Num (emargement_auto db));
                                 ("id_session", Num (params_id req));
                                 ("id_etudiant", Num (user_id row0));
                                 ("status", Str "1") ] |})
          /\ emargements db1 =
               (emargements db ++
                [ {| emargement_id := emargement_auto db;
                     emargement_session_id := params_id req;
                     emargement_etudiant_id := user_id row0;
                     emargement_status := "1" |} ])%list
          /\ users db1 = users db /\ sessions db1 = sessions db)
  /\ (forall row0 rest,
        rows = row0 :: rest ->
        checks (foreign_keys X) = true ->
        has_session db (params_id req) = false ->
        app X POST_sessions_id_emargement db a req =
          (db, Responded {| status := 500;
                            sent := JsonError (SqlError ER_NO_REFERENCED_ROW) |})).
Proof.
  intros C rows. subst rows.
  rewrite (app_passed X _ db a req req1 C).
  cbn [handler]. unfold recordAttendance.
  split; [|split].
  - intros ->. reflexivity.
  - intros row0 rest Q K. rewrite Q. cbn [catch]. unfold insert_emargement.
    rewrite (selected_by_email_exists _ _ _ _ Q), andb_true_r.
    assert (F : checks (foreign_keys X) && negb (has_session db (params_id req)) = false)
      by (destruct K as [-> | ->]; [reflexivity | apply andb_false_r]).
    rewrite F. cbn [sql bind catch fst snd insertId].
    eexists. split; [reflexivity|]. cbn. auto.
  - intros row0 rest Q K M. rewrite Q. cbn [catch]. unfold insert_emargement.
    rewrite K, M. reflexivity.
Qed.

Lemma in_select_attendance db id row :
  In row (select_attendance db id) <->
  exists u e,
    In u (users db) /\ In e (emargements db)
    /\ user_id u = emargement_etudiant_id e
    /\ emargement_session_id e = id
    /\ row = [ ("name", Str (user_name u)) ].
Proof.
  unfold select_attendance. rewrite in_flat_map. split.
  - intros (u & Iu & J). apply in_flat_map in J as (e & Ie & K).
    destruct ((user_id u =? emargement_etudiant_id e)
              && (emargement_session_id e =? id)) eqn:T; [|destruct K].
    apply andb_prop in T as [T1 T2]. apply Z.eqb_eq in T1, T2.
    destruct K as [<- | []]. exists u, e. auto.
  - intros (u & e & Iu & Ie & T1 & T2 & ->).
    exists u. split; [exact Iu|]. apply in_flat_map. exists e.
    split; [exact Ie|].
    apply Z.eqb_eq in T1, T2. rewrite T1, T2. now left.
Qed.

(** X11.  After POST /sessions/:id/emargement answered 200, the roster
    of that session (GET /sessions/:id/emargement, for a request that
    passes the role check) answers 200 and names the user whose email
    was in the body; and every row of a roster is the name of a user
    who has an attendance record for that session. *)
Theorem roster_after_mark
    (X : platform) (db db1 : database) (a a' : ambient) (req req' req1' : request)
    (res : response) :
  app X POST_sessions_id_emargement db a req = (db1, Responded res) ->
  status res = 200 ->
  run_chain X (chain GET_sessions_id_emargement) req' = Ok req1' ->
  params_id req' = params_id req ->
  exists row0 rest rows,
    select_user_by_email db (field (body req) "email") = row0 :: rest
    /\ app X GET_sessions_id_emargement db1 a' req' =
         (db1, Responded {| status := 200; sent := JsonRows rows |})
    /\ In [ ("name", Str (user_name row0)) ] rows
    /\ forall row, In row rows ->
         exists u, In u (users db1)
                   /\ row = [ ("name", Str (user_name u)) ]
                   /\ attendance_of db1 (params_id req) (user_id u) <> [].
Proof.
  intros H S C' P'.
  destruct (recordAttendance_200 X db a req db1 res H S)
    as (req1 & row0 & rest & _ & _ & Q & _ & E & _).
  exists row0, rest, (select_attendance db1 (params_id req)).
  split; [exact Q|]. split; [|split].
  - rewrite (app_passed X _ db1 a' req' req1' C').
    cbn [handler]. unfold listAttendance. rewrite P'. reflexivity.
  - apply in_select_attendance.
    exists row0, {| emargement_id := emargement_auto db;
                    emargement_session_id := params_id req;
                    emargement_etudiant_id := user_id row0;
                    emargement_status := "1" |}.
    rewrite E. cbn [users emargements]. repeat split.
    + assert (I : In row0 (select_user_by_email db (field (body req) "email")))
        by (rewrite Q; now left).
      apply filter_In in I. tauto.
    + apply in_or_app. right. now left.
  - intros row I. apply in_select_attendance in I
      as (u & e & Iu & Ie & T1 & T2 & ->).
    exists u. repeat split; [exact Iu|].
    intros N.
    assert (J : In e (attendance_of db1 (params_id req) (user_id u))).
    { unfold attendance_of. apply filter_In. split; [exact Ie|].
      apply andb_true_intro. split; apply Z.eqb_eq; congruence. }
    rewrite N in J. destruct J.
Qed.

(* ------------------------------------------------------------------ *)
(** ** Who can write what *)

Lemma handler_tables X c r db a req :
  let db1 := fst (handler X c r db a req) in
  (users db1 = users db \/ r = POST_auth_signup)
  /\ (sessions db1 = sessions db \/ In auth_form (chain r))
  /\ (emargements db1 = emargements db
      \/ In auth_etud (chain r) \/ In auth_form (chain r)).
Proof.
  destruct r; cbn [handler chain]; cbn zeta;
    unfold signup, insert_user, login, createSession, insert_session,
           listSessions, getSession, updateSession, update_session,
           deleteSession, delete_session, recordAttendance,
           insert_emargement, listAttendance, first_id;
    repeat match goal with
           | |- context [match ?x with _ => _ end] => destruct x; cbn
           | |- context [if ?x then _ else _] => destruct x; cbn
           end;
    cbn; repeat split;
    first [ left; reflexivity | right; cbn; auto 8 ].
Qed.

(** X12.  Whatever the request, a route leaves the user table as it
    was unless it is signup; it leaves the session table as it was
    unless the request carries a token that verifies under the key of
    the process with the role formateur; and it leaves the attendance
    table as it was unless the request carries such a token with the
    role etudiant or formateur. *)
Theorem writes_need_role
    (X : platform) (r : route) (db : database) (a : ambient) (req : request) :
  let db1 := fst (app X r db a req) in
  let verified role :=
    exists tok caller,
      authorization req = Some (Bearer tok)
      /\ jwt_verify X tok (JWT_KEY X) = Some caller
      /\ p_role caller = role in
  (users db1 = users db \/ r = POST_auth_signup)
  /\ (sessions db1 = sessions db \/ verified "formateur")
  /\ (emargements db1 = emargements db
      \/ verified "etudiant" \/ verified "formateur").
Proof.
  cbn zeta. unfold app, serve.
  destruct (run_chain X (chain r) req) as [req1|e] eqn:C; [|cbn; auto].
  destruct (run_chain_auth X r req req1 C) as [AF AE].
  pose proof (handler_tables X connectDb r db a req1) as (U & S & E).
  destruct (handler X connectDb r db a req1) as [db1 res]. cbn [fst] in *.
  assert (VF : In auth_form (chain r) ->
               exists tok caller,
                 authorization req = Some (Bearer tok)
                 /\ jwt_verify X tok (JWT_KEY X) = Some caller
                 /\ p_role caller = "formateur").
  { intros I. destruct (AF I) as [q A].
    destruct (requireRole_ok X _ _ _ A) as (tok & caller & ? & ? & ? & _).
    eauto. }
  assert (VE : In auth_etud (chain r) ->
               exists tok caller,
                 authorization req = Some (Bearer tok)
                 /\ jwt_verify X tok (JWT_KEY X) = Some caller
                 /\ p_role caller = "etudiant").
  { intros I. destruct (AE I) as [q A].
    destruct (requireRole_ok X _ _ _ A) as (tok & caller & ? & ? & ? & _).
    eauto. }
  split; [exact U|]. split.
  - destruct S as [S|S]; auto.
  - destruct E as [E|[E|E]]; auto.
Qed.

Lemma handler_keeps_users X c r db a req :
  exists added, users (fst (handler X c r db a req)) = (users db ++ added)%list.
Proof.
  destruct (handler_tables X c r db a req) as ([U | ->] & _).
  - exists []. now rewrite app_nil_r.
  - cbn [handler]. unfold signup, insert_user.
    destruct (select_user_by_email _ _); cbn.
    + eexists. reflexivity.
    + exists []. now rewrite app_nil_r.
Qed.

(** X13.  No route changes or removes a user: after any sequence of
    requests the user table is the one before, in order, followed by
    the users added since; an account keeps its id, email, password
    hash and role. *)
Theorem users_are_kept
    (X : platform) (cs : list call) (db : database) :
  exists added, users (fst (run X db cs)) = (users db ++ added)%list.
Proof.
  revert db. induction cs as [|c cs IH]; intros db; cbn.
  - exists []. now rewrite app_nil_r.
  - unfold app, serve.
    destruct (run_chain X (chain (target c)) (incoming c)) as [req1|e].
    + destruct (handler_keeps_users X connectDb (target c) db (at_time c) req1)
        as [add1 E1].
      destruct (handler _ _ _ _ _ _) as [db1 res]. cbn [fst] in E1.
      destruct (IH db1) as [add2 E2].
      destruct (run X db1 cs) as [db2 os]. cbn [fst] in *.
      exists (add1 ++ add2)%list. rewrite E2, E1. now rewrite app_assoc.
    + destruct (IH db) as [add E]. destruct (run X db cs). cbn [fst] in *.
      eauto.
Qed.

(* ------------------------------------------------------------------ *)
(** ** What holds of every store the service reaches *)

Lemma app_invariant X (P : database -> Prop) r db a req :
  P db ->
  (forall req1, run_chain X (chain r) req = Ok req1 ->
                P (fst (handler X connectDb r db a req))) ->
  P (fst (app X r db a req)).
Proof.
  intros H K.
  destruct (run_chain X (chain r) req) as [req1|e] eqn:C.
  - rewrite (app_passed X r db a req req1 C). cbn [fst]. eauto.
  - rewrite (app_refused X r db a req e C). exact H.
Qed.

Lemma run_invariant X (P : database -> Prop) :
  (forall r db a req, P db -> P (fst (app X r db a req))) ->
  forall cs db, P db -> P (fst (run X db cs)).
Proof.
  intros Step cs. induction cs as [|c cs IH]; intros db H; cbn; [exact H|].
  pose proof (Step (target c) db (at_time c) (incoming c) H) as H1.
  destruct (app X (target c) db (at_time c) (incoming c)) as [db1 o].
  cbn [fst] in H1. specialize (IH db1 H1).
  destruct (run X db1 cs). exact IH.
Qed.

Lemma all_present_handler X c r db a req :
  all_present db = true -> all_present (fst (handler X c r db a req)) = true.
Proof.
  unfold all_present. intros H.
  destruct r; cbn [handler];
    unfold signup, insert_user, login, createSession, insert_session,
           listSessions, getSession, updateSession, update_session,
           deleteSession, delete_session, recordAttendance,
           insert_emargement, listAttendance, first_id;
    repeat match goal with
           | |- context [match ?x with _ => _ end] => destruct x; cbn
           | |- context [if ?x then _ else _] => destruct x; cbn
           end;
    cbn; try exact H; try (apply forallb_filter; exact H).
  rewrite forallb_app, H. reflexivity.
Qed.

(** X14.  In every store the service reaches from the empty one, every
    attendance record has the status "1": the INSERT of POST
    /sessions/:id/emargement writes no other, and no route changes a
    record. *)
Theorem attendance_status_is_1 (X : platform) (cs : list call) :
  all_present (fst (run X empty_database cs)) = true.
Proof.
  apply (run_invariant X (fun db => all_present db = true)); [|reflexivity].
  intros r db a req H. apply app_invariant; [exact H|].
  intros _ _. now apply all_present_handler.
Qed.

(** X15.  In every store the service reaches from the empty one, every
    user has the role "etudiant" or "formateur": signup is the only
    route that adds a user, and it runs behind [userSchema]. *)
Theorem roles_are_known (X : platform) (cs : list call) :
  roles_known (fst (run X empty_database cs)) = true.
Proof.
  apply (run_invariant X (fun db => roles_known db = true)); [|reflexivity].
  intros r db a req H. apply app_invariant; [exact H|].
  intros req1 C.
  destruct (handler_tables X connectDb r db a req) as ([U | ->] & _).
  - unfold roles_known in *. rewrite U. exact H.
  - destruct (validated_by X _ _ _ userSchema C) with
      (k := "role") (c := Enum ["etudiant"; "formateur"]) as [_ P];
      [cbn; auto|cbn; auto 6|].
    cbn [passes] in P.
    cbn [handler]. unfold signup, insert_user.
    destruct (select_user_by_email _ _); cbn [catch sql bind fst snd];
      [|exact H].
    unfold roles_known in *. cbn [users]. rewrite forallb_app, H.
    cbn [forallb user_role andb]. rewrite P. reflexivity.
Qed.

(** X16.  In every store the service reaches from the empty one, every
    session has a title of at least four characters: POST /sessions and
    PUT /sessions/:id are the only routes that write a title, and both
    run behind a schema that asks for it. *)
Theorem titles_are_long (X : platform) (cs : list call) :
  titles_long (fst (run X empty_database cs)) = true.
Proof.
  apply (run_invariant X (fun db => titles_long db = true)); [|reflexivity].
  intros r db a req H. apply app_invariant; [exact H|].
  intros req1 C. unfold titles_long in *.
  destruct r; cbn [handler].
  - unfold signup, insert_user.
    destruct (select_user_by_email _ _); cbn; exact H.
  - unfold login.
    destruct (select_user_by_email _ _); cbn; [exact H|].
    destruct (negb _); exact H.
  - destruct (validated_by X _ _ _ sessionsSchema C) with
      (k := "title") (c := MinString 4) as [_ P]; [cbn; auto|cbn; auto|].
    cbn [passes] in P.
    unfold createSession, insert_session, first_id.
    destruct (select_user_by_email _ _); cbn [catch sql bind fst snd];
      [exact H|].
    destruct (parse_date _); cbn [catch sql bind fst snd]; [|exact H].
    destruct (_ && _); cbn [catch sql bind fst snd sessions]; [exact H|].
    rewrite forallb_app, H. cbn [forallb session_title andb].
    rewrite P. reflexivity.
  - exact H.
  - unfold getSession. destruct (map _ _); exact H.
  - destruct (validated_by X _ _ _ modifSessionsSchema C) with
      (k := "newTitle") (c := MinString 4) as [_ P]; [cbn; auto|cbn; auto|].
    cbn [passes] in P.
    unfold updateSession, update_session.
    destruct (select_user_by_name _ _); cbn [catch sql bind fst snd];
      [exact H|].
    destruct (select_session_by_id _ _); cbn [catch sql bind fst snd];
      [exact H|].
    destruct (parse_date _); cbn [catch sql bind fst snd]; [|exact H].
    destruct (_ && _); cbn [catch sql bind fst snd sessions]; [exact H|].
    rewrite forallb_forall in *. intros s' I.
    apply in_map_iff in I as (s0 & <- & I0).
    destruct (session_id s0 =? params_id req); [exact P | auto].
  - unfold deleteSession, delete_session.
    destruct (select_session_by_id _ _),
      (filter (fun e => emargement_session_id e =? params_id req) (emargements db)),
      (foreign_keys X); cbn; try exact H; apply forallb_filter; exact H.
  - unfold recordAttendance, insert_emargement.
    destruct (select_user_by_email _ _); cbn; [exact H|].
    destruct (_ && _); exact H.
  - exact H.
Qed.

(* ------------------------------------------------------------------ *)
(** ** The formatting loop, whatever the driver delivers *)

Lemma format_value_no_date (v : value) :
  is_date_instance (format_value v) = false.
Proof. destruct v; reflexivity. Qed.

Lemma format_value_twice (v : value) :
  format_value (format_value v) = format_value v.
Proof. destruct v; reflexivity. Qed.

(** X17.  The loop of the two GET handlers, on any row: it keeps the
    keys and their order, leaves every value that is no [Date] as it
    is, turns a [Date] into the text before the "T" of its ISO form,
    leaves no [Date] behind, and changes nothing when run again. *)
Theorem format_row_effect (row : object) :
  map fst (format_row row) = map fst row
  /\ no_date_instance (format_row row) = true
  /\ format_row (format_row row) = format_row row
  /\ (forall k v, prop row k = Some v ->
        prop (format_row row) k =
          Some (match v with
                | DateObj t => Str (split_head "T" (toISOString t))
                | _ => v
                end)).
Proof.
  unfold format_row, no_date_instance.
  induction row as [|[k0 v0] row (IH1 & IH2 & IH3 & IH4)]; cbn.
  - repeat split; auto. discriminate.
  - repeat split.
    + now rewrite IH1.
    + now rewrite format_value_no_date, IH2.
    + now rewrite format_value_twice, IH3.
    + intros k v. destruct (String.eqb k k0).
      * intros [= <-]. destruct v0; reflexivity.
      * apply IH4.
Qed.

(* ------------------------------------------------------------------ *)
(** ** Requests without a credential *)

(** X18.  On every route that registers a role check, POST /sessions
    apart, a request without a token that verifies is refused as
    unauthenticated whatever its body holds, and the store is not
    touched: the role check is registered ahead of the schema. *)
Theorem unauthenticated_is_refused_first
    (X : platform) (r : route) (db : database) (a : ambient) (req : request) :
  existsb is_auth (chain r) = true ->
  r <> POST_sessions ->
  (forall tok, authorization req = Some (Bearer tok) ->
               jwt_verify X tok (JWT_KEY X) = None) ->
  app X r db a req = (db, Refused Unauthenticated).
Proof.
  intros G N V. unfold app, serve.
  assert (E : forall role, requireRole X role req = Err Unauthenticated).
  { intros role. unfold requireRole.
    destruct (authorization req) as [[?|t]|]; try reflexivity.
    now rewrite (V t eq_refl). }
  destruct r; try discriminate G; try (now destruct N);
    cbn [chain run_chain run_middleware bind];
    unfold checkAuthForm, checkAuthEtud; rewrite E; reflexivity.
Qed.

(* ------------------------------------------------------------------ *)
(** ** The further properties at work in the classroom *)

Lemma signup_outcome_witness :
  select_user_by_email db0 "e@x.com" = []
  /\ select_user_by_email db0 "a@x.com" <> []
  /\ (exists db1,
        app X0 POST_auth_signup db0 noon eve_signup =
          (db1, Responded
             {| status := 200;
                sent := Json [ ("id", Num 4); ("name", Str "Eve");
                               ("email", Str "e@x.com");
                               ("role", Str "etudiant") ] |})
        /\ List.length (users db1) = 4%nat)
  /\ app X0 POST_auth_signup db0 noon ana_again =
       (db0, Responded {| status := 500;
                          sent := JsonError (SqlError ER_DUP_ENTRY) |}).
Proof.
  assert (T : select_user_by_email db0 "a@x.com" <> [])
    by (vm_compute; discriminate).
  split; [reflexivity|]. split; [exact T|]. split.
  - destruct (proj1 (signup_outcome X0 db0 noon eve_signup _ eq_refl) eq_refl)
      as (db1 & A & U & _).
    exists db1. split; [exact A|]. rewrite U. reflexivity.
  - exact (proj2 (signup_outcome X0 db0 noon ana_again _ eq_refl) T).
Defined.

Lemma login_token_sound_witness :
  exists tok,
    app X0 POST_auth_login db0 noon ana_login =
      (db0, Responded {| status := 200; sent := JsonToken tok |})
    /\ select_user_by_email db0 "a@x.com" = [ana]
    /\ tk_payload tok = {| p_id := 1; p_role := "etudiant" |}.
Proof.
  eexists. split; [reflexivity|]. split; [reflexivity|].
  destruct (login_token_sound X0 db0 db0 noon ana_login _ _ eq_refl eq_refl)
    as (row0 & rest & Q & _ & P & _).
  change (select_user_by_email db0 (field (body ana_login) "email"))
    with [ana] in Q.
  injection Q as <- _. exact P.
Defined.

Lemma create_session_succeeds_witness :
  select_user_by_email db0 "z@x.com" = [zoe]
  /\ exists db1,
       app X0 POST_sessions db0 noon post_rocq =
         (db1, Responded
            {| status := 200;
               sent := Json [ ("id", Num 2); ("title", Str "Rocq");
                              ("date", Str "2025-01-15");
                              ("id_formateur", Num 3) ] |})
       /\ app X0 GET_sessions db1 noon (anonymous 0 []) =
            (db1, Responded
               {| status := 200;
                  sent := JsonRows
                    [ [ ("id", Num 1); ("title", Str "Algo");
                        ("date", Str "2024-12-09"); ("formateur_id", Num 3) ];
                      [ ("id", Num 2); ("title", Str "Rocq");
                        ("date", Str "2025-01-15"); ("formateur_id", Num 3) ] ] |}).
Proof.
  split; [reflexivity|].
  destruct (create_session_succeeds X0 db0 noon post_rocq _ zoe [] eq_refl eq_refl)
    as (d & db1 & _ & A & _ & _ & _ & L).
  exists db1. split; [exact A|]. exact (L noon (anonymous 0 [])).
Defined.

Lemma get_session_outcome_witness :
  has_session db0 7 = false
  /\ has_session db0 1 = true
  /\ app X0 GET_sessions_id db0 noon (anonymous 7 []) =
       (db0, Responded {| status := 404; sent := Text "Session not found" |})
  /\ exists rows,
       rows <> []
       /\ app X0 GET_sessions_id db0 noon (anonymous 1 []) =
            (db0, Responded {| status := 200; sent := JsonRows rows |}).
Proof.
  split; [reflexivity|]. split; [reflexivity|]. split.
  - exact (proj1 (get_session_outcome X0 db0 noon (anonymous 7 [])) eq_refl).
  - destruct (proj2 (get_session_outcome X0 db0 noon (anonymous 1 [])) eq_refl)
      as (rows & N & A & _).
    exists rows. split; [exact N | exact A].
Defined.

Lemma update_session_outcome_witness :
  select_user_by_name db0 "Nobody" = []
  /\ select_user_by_name db0 "Zoe" = [zoe]
  /\ app X0 PUT_sessions_id db0 noon put_nobody =
       (db0, Responded {| status := 404; sent := Text "User not found" |})
  /\ exists db1,
       app X0 PUT_sessions_id db0 noon put_algo =
         (db1, Responded
            {| status := 200;
               sent := Json [ ("id", Num 0); ("new_title", Str "Algo II");
                              ("new_date", Str "2025-02-01");
                              ("new_id_formateur", Num 3) ] |}).
Proof.
  split; [reflexivity|]. split; [reflexivity|]. split.
  - exact (proj1 (update_session_outcome X0 db0 noon put_nobody _ eq_refl) eq_refl).
  - destruct (proj2 (update_session_outcome X0 db0 noon put_algo _ eq_refl)
                zoe [] eq_refl) as (db1 & A & _).
    exists db1. exact A.
Defined.

Lemma update_then_get_witness :
  has_session db0 1 = true
  /\ exists rows,
       app X0 GET_sessions_id (fst (app X0 PUT_sessions_id db0 noon put_algo)) noon
           (anonymous 1 []) =
         (fst (app X0 PUT_sessions_id db0 noon put_algo),
          Responded {| status := 200; sent := JsonRows rows |})
       /\ forall row, In row rows ->
            row = [ ("id", Num 1); ("title", Str "Algo II");
                    ("date", Str "2025-02-01"); ("formateur_id", Num 3) ].
Proof.
  split; [reflexivity|].
  destruct (update_then_get X0 db0 _ noon noon put_algo (anonymous 1 []) _
              eq_refl eq_refl eq_refl) as (f & rows & R & G & _).
  cbn in R. injection R as <-.
  destruct (G eq_refl) as (_ & A & F).
  exists rows. split; [exact A | exact F].
Defined.

Lemma delete_then_get_witness :
  app X0 GET_sessions_id (fst (app X0 DELETE_sessions_id db0 noon delete_one)) noon
      (anonymous 1 []) =
    (fst (app X0 DELETE_sessions_id db0 noon delete_one),
     Responded {| status := 404; sent := Text "Session not found" |})
  /\ snd (app X0 GET_sessions_id db0 noon (anonymous 1 [])) <>
       Responded {| status := 404; sent := Text "Session not found" |}.
Proof.
  split; [|vm_compute; discriminate].
  exact (proj1 (delete_then_get X0 db0 _ noon noon delete_one (anonymous 1 []) _
                  eq_refl eq_refl) eq_refl).
Defined.

Lemma record_attendance_outcome_witness :
  app X0 POST_sessions_id_emargement db0 noon mark_ghost =
    (db0, Responded {| status := 404; sent := Text "User not found" |})
  /\ (exists db1,
        app X0 POST_sessions_id_emargement db0 noon mark_bob_as_ana =
          (db1, Responded
             {| status := 200;
                sent := Json [ ("id", Num 1); ("id_session", Num 1);
                               ("id_etudiant", Num 2); ("status", Str "1") ] |}))
  /\ app X0 POST_sessions_id_emargement db0 noon
         (as_user X0 1 "etudiant" 9 [ ("email", Str "b@x.com") ]) =
       (db0, Responded {| status := 500;
                          sent := JsonError (SqlError ER_NO_REFERENCED_ROW) |}).
Proof.
  split; [|split].
  - exact (proj1 (record_attendance_outcome X0 db0 noon mark_ghost _ eq_refl)
             eq_refl).
  - destruct (proj1 (proj2 (record_attendance_outcome X0 db0 noon mark_bob_as_ana
                              _ eq_refl)) bob [] eq_refl (or_intror eq_refl))
      as (db1 & A & _).
    exists db1. exact A.
  - exact (proj2 (proj2 (record_attendance_outcome X0 db0 noon
                           (as_user X0 1 "etudiant" 9 [ ("email", Str "b@x.com") ])
                           _ eq_refl)) bob [] eq_refl eq_refl eq_refl).
Defined.

Lemma roster_after_mark_witness :
  exists rows,
    app X0 GET_sessions_id_emargement marked_once noon roster_one =
      (marked_once, Responded {| status := 200; sent := JsonRows rows |})
    /\ In [ ("name", Str "Bob") ] rows.
Proof.
  destruct (roster_after_mark X0 db0 marked_once noon noon mark_bob_as_ana
              roster_one _ _ eq_refl eq_refl eq_refl eq_refl)
    as (row0 & rest & rows & Q & A & I & _).
  change (select_user_by_email db0 (field (body mark_bob_as_ana) "email"))
    with [bob] in Q.
  injection Q as <- _.
  exists rows. split; [exact A | exact I].
Defined.

Lemma format_row_effect_witness :
  prop (format_row [ ("id", Num 1); ("date", DateObj 1733698800000) ]) "date" =
    Some (Str "2024-12-08")
  /\ prop (format_row [ ("id", Num 1); ("date", DateObj 1733698800000) ]) "id" =
       Some (Num 1).
Proof.
  split.
  - exact (proj2 (proj2 (proj2 (format_row_effect
             [ ("id", Num 1); ("date", DateObj 1733698800000) ])))
             "date" (DateObj 1733698800000) eq_refl).
  - exact (proj2 (proj2 (proj2 (format_row_effect
             [ ("id", Num 1); ("date", DateObj 1733698800000) ])))
             "id" (Num 1) eq_refl).
Defined.

Lemma unauthenticated_is_refused_first_witness :
  app X0 PUT_sessions_id db0 noon (anonymous 1 []) = (db0, Refused Unauthenticated)
  /\ app X0 POST_sessions_id_emargement db0 noon
         {| authorization := Some (Garbled "Bearer nonsense"); params_id := 1;
            body := []; attached := None |} =
       (db0, Refused Unauthenticated).
Proof.
  split.
  - apply unauthenticated_is_refused_first;
      [reflexivity | discriminate | discriminate].
  - apply unauthenticated_is_refused_first;
      [reflexivity | discriminate | discriminate].
Defined.
